(** * Shift salary calculator: a shallow embedding of the payroll pipeline

    The program reads one attendance sheet per month from an Excel
    workbook, derives the worked hours of every row from its date, clock-in
    and clock-out cells, attaches an hourly wage by employee name,
    multiplies the two, tags every row with its month, concatenates the
    months and writes the result to a new workbook.

    The source is written against pandas.  The pandas operations it calls
    are modelled here as executable functions on columns of cells; the five
    functions of the source ([calculate_work_hours], [apply_wage_master],
    [calculate_salary], [load_and_process_months], [main]) are translated
    statement by statement on top of them. *)

From Stdlib Require Import ZArith QArith Qround Qabs Lqa Strings.String Strings.Ascii.
From stdpp Require Import gmap strings list fin_maps.

Local Open Scope string_scope.
Local Open Scope Z_scope.

(** ** Cells

    A cell of a DataFrame column.  [VTime] is a [datetime.time] (what
    [read_excel] gives for a time-formatted Excel cell), [VTimestamp]
    counts nanoseconds since the epoch as [datetime64[ns]] does, [VNaN] is
    the float NaN of an empty cell and [VNaT] the missing timestamp.  A
    float is idealised as the rational it denotes.  [VInt] and [VFloat]
    differ in how a number prints ([9] and [9.0]); a cell carries the kind
    of its column, so a numeric column with one fractional cell holds
    [VFloat] cells only. *)
Inductive value : Type :=
| VNaN
| VNaT
| VStr (s : string)
| VInt (n : Z)
| VFloat (q : Q)
| VTime (hour minute second microsecond : Z)
| VTimestamp (ns : Z).

(** pandas' [isna]. *)
Definition is_null (v : value) : bool :=
  match v with
  | VNaN | VNaT => true
  | _ => false
  end.

(** ** Exceptions

    The Python exceptions the pipeline can raise, and the result of a call
    that either returns or raises. *)
Inductive error : Type :=
| KeyError (column : string)
| SheetNotFound (sheet : string)
| FileNotFound (path : string)
| DateParseError (cell : string)
| TypeError
| OutOfBounds
| OverflowError
| NoObjectsToConcatenate.

Inductive result (A : Type) : Type :=
| Ok (a : A)
| Raise (e : error).
Arguments Ok {A} a.
Arguments Raise {A} e.

#[global] Instance result_ret : MRet result := fun _ a => Ok a.
#[global] Instance result_bind : MBind result := fun _ _ f m =>
  match m with
  | Ok a => f a
  | Raise e => Raise e
  end.

(** ** Decimal text *)

Definition digit_char (d : Z) : ascii := ascii_of_N (Z.to_N (48 + d)).

Definition digit_val (c : ascii) : option Z :=
  let n := Z.of_N (N_of_ascii c) in
  if (48 <=? n) && (n <=? 57) then Some (n - 48) else None.

(** [n] written with exactly [width] digits, zero padded (["%0<width>d"]). *)
Fixpoint pad (width : nat) (n : Z) : string :=
  match width with
  | O => ""
  | S w => pad w (n / 10) +:+ String (digit_char (n mod 10)) ""
  end.

(** Decimal text of a natural number or integer, as [str(int)] gives it. *)
Fixpoint digits_fuel (fuel : nat) (n : Z) (acc : string) : string :=
  match fuel with
  | O => acc
  | S f =>
      let acc' := String (digit_char (n mod 10)) acc in
      if n / 10 =? 0 then acc' else digits_fuel f (n / 10) acc'
  end.

Definition str_int (n : Z) : string :=
  let a := Z.abs n in
  let body := digits_fuel (S (Z.to_nat (Z.log2 a))) a "" in
  if n <? 0 then "-" +:+ body else body.

(** The digits after the decimal point of [num / den], for
    [0 <= num < den], until the expansion ends. *)
Fixpoint frac_digits (fuel : nat) (num den : Z) : string :=
  match fuel with
  | O => ""
  | S f =>
      if num =? 0 then ""
      else String (digit_char (10 * num / den))
                  (frac_digits f (10 * num mod den) den)
  end.

(** [repr] of a float in positional notation: the integer part, a point,
    and the fractional digits (["0"] when there are none).  Python switches
    to exponent notation below 1e-4 and from 1e16 on; such cells are
    outside this model. *)
Definition repr_float (q : Q) : string :=
  let n := Z.abs (Qnum q) in
  let d := Z.pos (Qden q) in
  let body :=
    str_int (n / d) +:+ "." +:+
    (if n mod d =? 0 then "0" else frac_digits 17 (n mod d) d) in
  if Qnum q <? 0 then "-" +:+ body else body.

(** ** The proleptic Gregorian calendar

    Timestamps count nanoseconds since 1970-01-01T00:00:00. *)

Definition NS_PER_SECOND : Z := 1000000000.
Definition NS_PER_DAY : Z := 86400 * NS_PER_SECOND.

(** Bounds of [datetime64[ns]]: the int64 range without its least value,
    which encodes NaT. *)
Definition in_bounds (ns : Z) : bool :=
  (- 2 ^ 63 <? ns) && (ns <? 2 ^ 63).

Definition is_leap (y : Z) : bool :=
  ((y mod 4 =? 0) && negb (y mod 100 =? 0)) || (y mod 400 =? 0).

Definition days_in_month (y m : Z) : Z :=
  if m =? 2 then (if is_leap y then 29 else 28)
  else if (m =? 4) || (m =? 6) || (m =? 9) || (m =? 11) then 30
  else 31.

Definition valid_date (y m d : Z) : bool :=
  (1 <=? m) && (m <=? 12) && (1 <=? d) && (d <=? days_in_month y m).

(** Days since the epoch of the civil date [y]-[m]-[d]. *)
Definition days_from_civil (y m d : Z) : Z :=
  let y' := if m <=? 2 then y - 1 else y in
  let era := y' / 400 in
  let yoe := y' - era * 400 in
  let mp := if m <=? 2 then m + 9 else m - 3 in
  let doy := (153 * mp + 2) / 5 + d - 1 in
  let doe := yoe * 365 + yoe / 4 - yoe / 100 + doy in
  era * 146097 + doe - 719468.

(** The civil date of a day number. *)
Definition civil_from_days (z : Z) : Z * Z * Z :=
  let z' := z + 719468 in
  let era := z' / 146097 in
  let doe := z' - era * 146097 in
  let yoe := (doe - doe / 1460 + doe / 36524 - doe / 146096) / 365 in
  let doy := doe - (365 * yoe + yoe / 4 - yoe / 100) in
  let mp := (5 * doy + 2) / 153 in
  let d := doy - (153 * mp + 2) / 5 + 1 in
  let m := if mp <? 10 then mp + 3 else mp - 9 in
  let y := yoe + era * 400 in
  (if m <=? 2 then y + 1 else y, m, d).

(** ** Text of timestamps and times *)

(** How much of a timestamp a column shows: pandas picks one layout for a
    whole [datetime64] column from the finest unit any of its cells
    needs. *)
Inductive resolution : Type :=
| RDay | RSecond | RMilli | RMicro | RNano.

Definition resolution_of (ns : Z) : resolution :=
  if ns mod NS_PER_DAY =? 0 then RDay
  else if ns mod 1000000000 =? 0 then RSecond
  else if ns mod 1000000 =? 0 then RMilli
  else if ns mod 1000 =? 0 then RMicro
  else RNano.

Definition resolution_rank (r : resolution) : nat :=
  match r with
  | RDay => 0 | RSecond => 1 | RMilli => 2 | RMicro => 3 | RNano => 4
  end.

Definition resolution_max (a b : resolution) : resolution :=
  if (resolution_rank a <? resolution_rank b)%nat then b else a.

Definition format_date (ns : Z) : string :=
  let '(y, m, d) := civil_from_days (ns / NS_PER_DAY) in
  pad 4 y +:+ "-" +:+ pad 2 m +:+ "-" +:+ pad 2 d.

Definition format_clock (sod : Z) : string :=
  pad 2 (sod / 3600) +:+ ":" +:+ pad 2 (sod / 60 mod 60) +:+ ":" +:+
  pad 2 (sod mod 60).

Definition format_timestamp (r : resolution) (ns : Z) : string :=
  let tod := ns mod NS_PER_DAY in
  let frac := tod mod NS_PER_SECOND in
  match r with
  | RDay => format_date ns
  | RSecond =>
      format_date ns +:+ " " +:+ format_clock (tod / NS_PER_SECOND)
  | RMilli =>
      format_date ns +:+ " " +:+ format_clock (tod / NS_PER_SECOND) +:+
      "." +:+ pad 3 (frac / 1000000)
  | RMicro =>
      format_date ns +:+ " " +:+ format_clock (tod / NS_PER_SECOND) +:+
      "." +:+ pad 6 (frac / 1000)
  | RNano =>
      format_date ns +:+ " " +:+ format_clock (tod / NS_PER_SECOND) +:+
      "." +:+ pad 9 frac
  end.

(** [str] of a [datetime.time]: [HH:MM:SS], with six fractional digits
    when the microsecond is not zero. *)
Definition str_time (h m s us : Z) : string :=
  let base := pad 2 h +:+ ":" +:+ pad 2 m +:+ ":" +:+ pad 2 s in
  if us =? 0 then base else base +:+ "." +:+ pad 6 us.

(** [str] of a single [Timestamp]: always with the clock, and with six or
    nine fractional digits when needed. *)
Definition str_timestamp (ns : Z) : string :=
  let frac := ns mod NS_PER_SECOND in
  if frac =? 0 then format_timestamp RSecond ns
  else if frac mod 1000 =? 0 then format_timestamp RMicro ns
  else format_timestamp RNano ns.

(** ** Reading timestamps from text

    [pd.to_datetime] on strings is modelled on the ISO 8601 layouts that
    its strict parser reads: [YYYY-MM-DD], optionally followed by a space or
    [T] and a clock [HH], [H:M], [H:M:S] or [H:M:S.fraction], hour, minute
    and second of one or two digits.  Every other text is read as a parse
    failure, which is what pandas gives for text that is no date at all;
    the looser fallback layouts of pandas (month names, AM/PM, time zones)
    are outside this model. *)

Definition expect (c : ascii) (s : string) : option string :=
  match s with
  | String c' s' => if Ascii.eqb c c' then Some s' else None
  | EmptyString => None
  end.

(** Exactly [k] digits. *)
Fixpoint read_digits (k : nat) (acc : Z) (s : string) : option (Z * string) :=
  match k with
  | O => Some (acc, s)
  | S k' =>
      match s with
      | String c s' =>
          match digit_val c with
          | Some d => read_digits k' (10 * acc + d) s'
          | None => None
          end
      | EmptyString => None
      end
  end.

(** Two digits, or one digit when no second one follows. *)
Definition read_1or2 (s : string) : option (Z * string) :=
  match read_digits 2 0 s with
  | Some r => Some r
  | None => read_digits 1 0 s
  end.

(** The fractional digits of a second, to the end of the text, in
    nanoseconds; digits past the ninth are dropped. *)
Fixpoint read_frac (s : string) (scale acc : Z) : option Z :=
  match s with
  | EmptyString => Some acc
  | String c s' =>
      match digit_val c with
      | Some d => read_frac s' (scale / 10) (acc + d * (scale / 10))
      | None => None
      end
  end.

(** A clock, to the end of the text, in nanoseconds since midnight. *)
Definition parse_clock (s : string) : option Z :=
  '(h, s1) ← read_1or2 s;
  if 24 <=? h then None else
  match s1 with
  | EmptyString =>
      if (String.length s =? 2)%nat then Some (h * 3600 * NS_PER_SECOND)
      else None
  | String c1 s2 =>
      if negb (Ascii.eqb c1 ":") then None else
      '(mi, s3) ← read_1or2 s2;
      if 60 <=? mi then None else
      match s3 with
      | EmptyString => Some ((h * 3600 + mi * 60) * NS_PER_SECOND)
      | String c3 s4 =>
          if negb (Ascii.eqb c3 ":") then None else
          '(sec, s5) ← read_1or2 s4;
          if 60 <=? sec then None else
          let whole := (h * 3600 + mi * 60 + sec) * NS_PER_SECOND in
          match s5 with
          | EmptyString => Some whole
          | String c5 s6 =>
              if negb (Ascii.eqb c5 ".") then None else
              match s6 with
              | EmptyString => None
              | _ => f ← read_frac s6 NS_PER_SECOND 0; Some (whole + f)
              end
          end
      end
  end.

(** A calendar date at the head of the text: its day number and the rest
    of the text. *)
Definition parse_date (s : string) : option (Z * string) :=
  '(y, s) ← read_digits 4 0 s;
  s ← expect "-" s;
  '(m, s) ← read_digits 2 0 s;
  s ← expect "-" s;
  '(d, s) ← read_digits 2 0 s;
  if valid_date y m d then Some (days_from_civil y m d, s) else None.

(** The timestamp a text denotes, [None] for a parse failure or a
    timestamp outside the bounds of [datetime64[ns]]. *)
Definition parse_datetime (s : string) : option Z :=
  '(days, rest) ← parse_date s;
  ns ← match rest with
       | EmptyString => Some (days * NS_PER_DAY)
       | String c rest' =>
           if Ascii.eqb c " " || Ascii.eqb c "T"
           then t ← parse_clock rest'; Some (days * NS_PER_DAY + t)
           else None
       end;
  if in_bounds ns then Some ns else None.

(** ** Series operations *)

(** [str(x)] of one cell. *)
Definition str_cell (v : value) : string :=
  match v with
  | VNaN => "nan"
  | VNaT => "NaT"
  | VStr s => s
  | VInt n => str_int n
  | VFloat q => repr_float q
  | VTime h m s us => str_time h m s us
  | VTimestamp ns => str_timestamp ns
  end.

Definition is_datetime_cell (v : value) : bool :=
  match v with
  | VTimestamp _ | VNaT => true
  | _ => false
  end.

Definition column_resolution (col : list value) : resolution :=
  foldr (fun v r =>
           match v with
           | VTimestamp ns => resolution_max (resolution_of ns) r
           | _ => r
           end) RDay col.

(** [series.astype(str)].  A column holding only timestamps has dtype
    [datetime64[ns]] and is written in one layout for the whole column:
    the date alone when every cell is at midnight.  Any other column is an
    object column, written cell by cell. *)
Definition astype_str (col : list value) : list string :=
  if forallb is_datetime_cell col then
    let r := column_resolution col in
    map (fun v =>
           match v with
           | VTimestamp ns => format_timestamp r ns
           | _ => "NaT"
           end) col
  else map str_cell col.

(** [a + b] on two series of strings, and [a + " "]. *)
Definition str_add (a b : list string) : list string :=
  zip_with String.append a b.

Definition str_add_scalar (a : list string) (b : string) : list string :=
  map (fun x => x +:+ b) a.

Definition is_nat_string (s : string) : bool :=
  String.eqb s "" || String.eqb s "NaT" || String.eqb s "nat" ||
  String.eqb s "nan" || String.eqb s "NaN".

(** [pd.to_datetime(series)] with the default [errors="raise"], one
    cell. *)
Definition to_datetime_cell (v : value) : result value :=
  match v with
  | VTimestamp ns => Ok (VTimestamp ns)
  | VNaT | VNaN => Ok VNaT
  | VStr s =>
      if is_nat_string s then Ok VNaT else
      match parse_datetime s with
      | Some ns => Ok (VTimestamp ns)
      | None => Raise (DateParseError s)
      end
  | VInt n => if in_bounds n then Ok (VTimestamp n) else Raise OutOfBounds
  | VFloat q =>
      let n := Z.quot (Qnum q) (Z.pos (Qden q)) in
      if in_bounds n then Ok (VTimestamp n) else Raise OutOfBounds
  | VTime _ _ _ _ => Raise TypeError
  end.

Definition to_datetime (col : list value) : result (list value) :=
  mapM to_datetime_cell col.

(** [pd.to_datetime(strings, errors="coerce")]: a text that does not parse
    becomes NaT instead of raising.  Each text is read on its own, as
    pandas 1 does, and as pandas 2 does for a column whose texts share one
    layout. *)
Definition to_datetime_coerce_cell (s : string) : value :=
  match parse_datetime s with
  | Some ns => VTimestamp ns
  | None => VNaT
  end.

Definition to_datetime_coerce (col : list string) : list value :=
  map to_datetime_coerce_cell col.

(** [a < b] on two timestamp cells; a comparison with NaT is false. *)
Definition lt_cell (a b : value) : bool :=
  match a, b with
  | VTimestamp x, VTimestamp y => x <? y
  | _, _ => false
  end.

Definition series_lt (a b : list value) : list bool := zip_with lt_cell a b.

(** [a - b] on two timestamp cells: nanoseconds, [None] for NaT. *)
Definition sub_cell (a b : value) : option Z :=
  match a, b with
  | VTimestamp x, VTimestamp y => Some (x - y)
  | _, _ => None
  end.

Definition series_sub (a b : list value) : list (option Z) :=
  zip_with sub_cell a b.

(** [pd.Timedelta(days=1)]. *)
Definition Timedelta_days (d : Z) : Z := d * NS_PER_DAY.

(** [cell + delta]; the sum is checked against the int64 range. *)
Definition add_timedelta (delta : Z) (v : value) : result value :=
  match v with
  | VTimestamp ns =>
      if in_bounds (ns + delta) then Ok (VTimestamp (ns + delta))
      else Raise OverflowError
  | _ => Ok v
  end.

(** [.dt.total_seconds()], [/ k] and [.round(decimals)] on a float series
    with NaN as [None]. *)
Definition total_seconds (td : option Z) : option Q :=
  (fun ns => inject_Z ns / inject_Z NS_PER_SECOND)%Q <$> td.

Definition float_div (k : Q) (x : option Q) : option Q :=
  (fun q => q / k)%Q <$> x.

(** Round to the nearest integer, ties to the even one. *)
Definition rint (q : Q) : Z :=
  let f := Qfloor q in
  match (q - inject_Z f ?= 1 # 2)%Q with
  | Lt => f
  | Gt => f + 1
  | Eq => if Z.even f then f else f + 1
  end.

Definition round_decimals (decimals : nat) (x : option Q) : option Q :=
  let scale := inject_Z (10 ^ Z.of_nat decimals) in
  (fun q => inject_Z (rint (q * scale)) / scale)%Q <$> x.

Definition float_cell (x : option Q) : value :=
  match x with
  | Some q => VFloat (Qred q)
  | None => VNaN
  end.

(** [a * b] on two numeric cells; NaN is absorbing.  The program multiplies
    the hours column by the wage column, which hold numbers and NaN only;
    cells of another kind are given NaN here, and the properties below
    that speak of products assume numeric columns. *)
Definition mul_cell (a b : value) : value :=
  match a, b with
  | VFloat x, VFloat y => VFloat (Qred (x * y))
  | VFloat x, VInt y => VFloat (Qred (x * inject_Z y))
  | VInt x, VFloat y => VFloat (Qred (inject_Z x * y))
  | VInt x, VInt y => VInt (x * y)
  | _, _ => VNaN
  end.

Definition series_mul (a b : list value) : list value := zip_with mul_cell a b.

(** [series.map(d)] for a dict [d] with string keys: a cell that is no key
    of [d] maps to NaN. *)
Definition map_dict (d : gmap string Z) (col : list value) : list value :=
  map (fun v =>
         match v with
         | VStr s => match d !! s with Some w => VInt w | None => VNaN end
         | _ => VNaN
         end) col.

(** ** DataFrames

    A frame is its number of rows and its columns by name.  Row labels are
    not modelled: every frame here has the default range index. *)
Record DataFrame : Type := {
  nrows : nat;
  columns : gmap string (list value)
}.

(** [df[c]] *)
Definition getcol (df : DataFrame) (c : string) : result (list value) :=
  match columns df !! c with
  | Some col => Ok col
  | None => Raise (KeyError c)
  end.

(** [df[c] = series] *)
Definition setcol (df : DataFrame) (c : string) (col : list value) : DataFrame :=
  {| nrows := nrows df; columns := <[c := col]> (columns df) |}.

(** [df[c] = scalar] *)
Definition setcol_scalar (df : DataFrame) (c : string) (v : value) : DataFrame :=
  setcol df c (replicate (nrows df) v).

(** [df.drop(columns=cs, inplace=True)] *)
Fixpoint drop_columns (cs : list string) (df : DataFrame) : result DataFrame :=
  match cs with
  | [] => Ok df
  | c :: cs' =>
      match columns df !! c with
      | Some _ =>
          drop_columns cs'
            {| nrows := nrows df; columns := delete c (columns df) |}
      | None => Raise (KeyError c)
      end
  end.

(** [df.loc[mask, c] += delta] *)
Definition loc_iadd (df : DataFrame) (mask : list bool) (c : string)
    (delta : Z) : result DataFrame :=
  col ← getcol df c;
  col' ← mapM (fun '(b, v) => if b : bool then add_timedelta delta v else Ok v)
              (zip mask col);
  Ok (setcol df c col').

(** A sheet as stored in a workbook, and a frame as written to one: the
    columns in order, each with its header. *)
Definition Table : Type := list (string * list value).

(** [df[[c1, ..., cn]]] *)
Definition select_columns (df : DataFrame) (cs : list string) : result Table :=
  mapM (fun c => col ← getcol df c; Ok (c, col)) cs.

Definition fill_missing (n : nat) (o : option (list value)) : list value :=
  default (replicate n VNaN) o.

Definition concat2 (a b : DataFrame) : DataFrame :=
  {| nrows := nrows a + nrows b;
     columns :=
       merge (fun x y =>
                match x, y with
                | None, None => None
                | _, _ => Some (fill_missing (nrows a) x ++
                                fill_missing (nrows b) y)%list
                end) (columns a) (columns b) |}.

(** [pd.concat(dfs, ignore_index=True)]: the rows of the frames one after
    the other; a column missing from a frame is NaN on its rows. *)
Definition concat (dfs : list DataFrame) : result DataFrame :=
  match dfs with
  | [] => Raise NoObjectsToConcatenate
  | d :: ds => Ok (foldl concat2 d ds)
  end.

(** ** The source functions *)

(** [calculate_work_hours], first block: the date column becomes
    [datetime64]; the clock-in and clock-out cells are written after the
    date as text and read back as timestamps into two intermediate
    columns. *)
Definition date_clock_text (d c : list value) : list string :=
  str_add (str_add_scalar (astype_str d) " ") (astype_str c).

Definition convert_timestamps (df : DataFrame) : result DataFrame :=
  d ← getcol df "日付";
  d ← to_datetime d;
  let df := setcol df "日付" d in
  d ← getcol df "日付";
  c ← getcol df "出勤";
  let df := setcol df "出勤_dt" (to_datetime_coerce (date_clock_text d c)) in
  d ← getcol df "日付";
  c ← getcol df "退勤";
  Ok (setcol df "退勤_dt" (to_datetime_coerce (date_clock_text d c))).

(** [calculate_work_hours], second block: one day is added to the
    clock-out timestamp of the rows that clock out before they clock in. *)
Definition overnight_correction (df : DataFrame) : result DataFrame :=
  o ← getcol df "退勤_dt";
  i ← getcol df "出勤_dt";
  loc_iadd df (series_lt o i) "退勤_dt" (Timedelta_days 1).

(** [calculate_work_hours], third block: the worked hours. *)
Definition hours_cell (td : option Z) : value :=
  float_cell (round_decimals 2 (float_div 3600 (total_seconds td))).

Definition work_hours_column (df : DataFrame) : result DataFrame :=
  o ← getcol df "退勤_dt";
  i ← getcol df "出勤_dt";
  Ok (setcol df "勤務時間" (map hours_cell (series_sub o i))).

Definition calculate_work_hours (df : DataFrame) : result DataFrame :=
  df ← convert_timestamps df;
  df ← overnight_correction df;
  df ← work_hours_column df;
  drop_columns ["出勤_dt"; "退勤_dt"] df.

Definition wage_map : gmap string Z :=
  <["田中" := 1400]> (<["鈴木" := 1300]> (<["佐藤" := 1200]> ∅)).

Definition apply_wage_master (df : DataFrame) : result DataFrame :=
  names ← getcol df "名前";
  Ok (setcol df "時給" (map_dict wage_map names)).

Definition calculate_salary (df : DataFrame) : result DataFrame :=
  h ← getcol df "勤務時間";
  w ← getcol df "時給";
  Ok (setcol df "給与" (series_mul h w)).

(** ** Files

    The files of the directory the program runs in, each a workbook of
    named sheets, and what the program has printed. *)
Record World : Type := {
  files : gmap string (gmap string Table);
  stdout : list string
}.

(** The frame [read_excel] makes of a sheet.  Sheets are rectangular: all
    columns have the length of the first. *)
Definition frame_of_table (t : Table) : DataFrame :=
  {| nrows := match t with
              | [] => 0
              | (_, col) :: _ => length col
              end;
     columns := list_to_map t |}.

(** [pd.read_excel(path, sheet_name=sheet)] *)
Definition read_excel (w : World) (path sheet : string) : result DataFrame :=
  match files w !! path with
  | None => Raise (FileNotFound path)
  | Some wb =>
      match wb !! sheet with
      | None => Raise (SheetNotFound sheet)
      | Some t => Ok (frame_of_table t)
      end
  end.

(** One pass of the loop of [load_and_process_months]: the sheet of one
    month is read, then processed and tagged with its month. *)
Definition process_sheet (df : DataFrame) (month : Z) : result DataFrame :=
  df ← calculate_work_hours df;
  df ← apply_wage_master df;
  df ← calculate_salary df;
  Ok (setcol_scalar df "対象月" (VInt month)).

Definition process_month (w : World) (input_path : string) (month : Z)
    : result DataFrame :=
  let sheet_name := str_int month +:+ "月" in
  df ← read_excel w input_path sheet_name;
  process_sheet df month.

Fixpoint load_loop (w : World) (input_path : string) (months : list Z)
    (monthly_dfs : list DataFrame) : result (list DataFrame) :=
  match months with
  | [] => Ok monthly_dfs
  | month :: rest =>
      df ← process_month w input_path month;
      load_loop w input_path rest (monthly_dfs ++ [df])%list
  end.

Definition load_and_process_months (w : World) (input_path : string)
    (months : list Z) : result DataFrame :=
  monthly_dfs ← load_loop w input_path months [];
  concat monthly_dfs.

Definition output_columns : list string :=
  ["日付"; "名前"; "出勤"; "退勤"; "勤務時間"; "時給"; "給与"; "対象月"].

Definition input_path_of (base_dir : string) (year : Z) : string :=
  base_dir +:+ "/勤怠管理シート" +:+ str_int year +:+ ".xlsx".

Definition output_path_of (base_dir : string) (year : Z)
    (target_months : list Z) : string :=
  base_dir +:+ "/勤怠管理_勤務時間付き_" +:+ str_int year +:+ "_" +:+
  str_int (hd 0 target_months) +:+ "-" +:+
  str_int (List.last target_months 0) +:+ "月.xlsx".

(** The body of [main] for given settings.  An exception leaves the
    function at the statement that raises it: what comes after is not
    run. *)
Definition main_body (year : Z) (target_months : list Z) (base_dir : string)
    (w : World) : World * result unit :=
  let input_path := input_path_of base_dir year in
  match load_and_process_months w input_path target_months with
  | Raise e => (w, Raise e)
  | Ok result_df =>
      match select_columns result_df output_columns with
      | Raise e => (w, Raise e)
      | Ok output_df =>
          let output_path := output_path_of base_dir year target_months in
          ({| files := <[output_path := {["Sheet1" := output_df]}]> (files w);
              stdout := (stdout w ++ ["勤務時間の計算が完了しました"])%list |},
           Ok tt)
      end
  end.

(** [main], with the settings of the source: year 2026, months 1 to 3. *)
Definition main (base_dir : string) (w : World) : World * result unit :=
  main_body 2026 [1; 2; 3] base_dir w.


(** * Definitions used by the properties *)

Definition parsed_clock (dts c : list value) : list value :=
  to_datetime_coerce (date_clock_text dts c).

Definition corrected_cell (o i : value) : value :=
  match o with
  | VTimestamp b =>
      if lt_cell o i then VTimestamp (b + Timedelta_days 1) else o
  | _ => o
  end.

Definition below_last_day (v : value) : Prop :=
  match v with
  | VTimestamp ns => ns + NS_PER_DAY < 2 ^ 63
  | _ => True
  end.

Definition day_fits (v : value) : Prop :=
  match v with
  | VTimestamp ns => in_bounds (ns + Timedelta_days 1) = true
  | _ => True
  end.

Definition corrected_out (dts cin cout : list value) : list value :=
  zip_with corrected_cell (parsed_clock dts cout) (parsed_clock dts cin).

Definition hours_of (dts cin cout : list value) : list value :=
  map hours_cell (series_sub (corrected_out dts cin cout) (parsed_clock dts cin)).

(** The frame after the third block, before the intermediate columns are
    dropped. *)
Definition with_hours (df : DataFrame) (dts cin cout : list value) : DataFrame :=
  setcol
    (setcol
       (setcol (setcol (setcol df "日付" dts) "出勤_dt" (parsed_clock dts cin))
          "退勤_dt" (parsed_clock dts cout))
       "退勤_dt" (corrected_out dts cin cout))
    "勤務時間" (hours_of dts cin cout).

(** The frame [calculate_work_hours] returns. *)
Definition work_hours_frame (df : DataFrame) (dts cin cout : list value)
    : DataFrame :=
  {| nrows := nrows df;
     columns :=
       <["勤務時間" := hours_of dts cin cout]>
         (<["日付" := dts]>
            (delete "退勤_dt" (delete "出勤_dt" (columns df)))) |}.

(** Lookups of a column name in a chain of column updates. *)
Ltac col_lookup :=
  repeat first
    [ rewrite lookup_insert_eq
    | rewrite lookup_delete_eq
    | rewrite lookup_insert_ne by done
    | rewrite lookup_delete_ne by done ].

Ltac run_getcol :=
  unfold getcol; cbn [columns setcol nrows]; col_lookup;
  cbn [mbind result_bind].

(** [h] is [x] rounded to two decimals, ties to the even hundredth. *)
Definition rounds_to_2_decimals (x h : Q) : Prop :=
  exists n : Z,
    (h == inject_Z n / 100)%Q /\
    (Qabs (x - h) <= 1 # 200)%Q /\
    ((Qabs (x - h) == 1 # 200)%Q -> Z.even n = true).

(** A reader that stops before the first space does not depend on what
    follows that space. *)
Definition stops_before_space {A} (p : string -> option (A * string)) : Prop :=
  forall q x v r,
    p (q +:+ String " " x) = Some (v, r) ->
    exists q', r = q' +:+ String " " x /\
               forall y, p (q +:+ String " " y) = Some (v, q' +:+ String " " y).

Fixpoint has_space (s : string) : bool :=
  match s with
  | EmptyString => false
  | String c s' => Ascii.eqb c " " || has_space s'
  end.

Definition elapsed_hours (ns : Z) : Q :=
  (inject_Z ns / inject_Z NS_PER_SECOND / 3600)%Q.

Definition ONE_DAY : Z := 24 * 3600 * NS_PER_SECOND.

(** ** A sample sheet

    Six rows of a January sheet, as [read_excel] gives them: dates as
    timestamps at midnight; clocks as text, as [datetime.time] cells, as a
    fraction of a day, empty, and as whole numbers. *)
Definition day_2026_01 (d : Z) : value :=
  VTimestamp (days_from_civil 2026 1 d * NS_PER_DAY).

Definition sample_dates : list value :=
  [day_2026_01 5; day_2026_01 5; day_2026_01 6; day_2026_01 6;
   day_2026_01 7; day_2026_01 7].

Definition sample_names : list value :=
  [VStr "田中"; VStr "鈴木"; VStr "山田"; VStr "田中"; VStr "佐藤"; VStr "佐藤"].

Definition sample_in : list value :=
  [VStr "22:00"; VTime 9 0 0 0; VStr "09:00"; VFloat (3 # 8); VNaN; VInt 12].

Definition sample_out : list value :=
  [VStr "06:00"; VTime 17 30 0 0; VStr "18:20"; VFloat (3 # 4); VStr "18:00";
   VInt 13].

Definition sample_sheet : Table :=
  [("日付", sample_dates); ("名前", sample_names);
   ("出勤", sample_in); ("退勤", sample_out)].

Definition sample_frame : DataFrame := frame_of_table sample_sheet.

(** [below_last_day] as a test. *)
Definition is_below_last_day (v : value) : bool :=
  match v with
  | VTimestamp ns => ns + NS_PER_DAY <? 2 ^ 63
  | _ => true
  end.

(** ** Wages and pay *)

(** The number a numeric cell holds. *)
Definition as_number (v : value) : option Q :=
  match v with
  | VInt n => Some (inject_Z n)
  | VFloat q => Some q
  | _ => None
  end.

(** A cell of a numeric column: a number or NaN. *)
Definition is_numeric (v : value) : bool :=
  match v with
  | VInt _ | VFloat _ | VNaN => true
  | _ => false
  end.

Definition wages_of (names : list value) : list value :=
  map_dict wage_map names.

Definition pay_of (dts names cin cout : list value) : list value :=
  series_mul (hours_of dts cin cout) (wages_of names).

(** The frame [process_sheet] returns. *)
Definition month_frame (df : DataFrame) (dts names cin cout : list value)
    (month : Z) : DataFrame :=
  setcol_scalar
    (setcol
       (setcol (work_hours_frame df dts cin cout) "時給" (wages_of names))
       "給与" (pay_of dts names cin cout))
    "対象月" (VInt month).

(** A frame with hours and wages, to multiply. *)
Definition sample_hours : list value := [VFloat 8; VNaN; VFloat (17 # 2)].
Definition sample_wages : list value := [VInt 1400; VInt 1300; VNaN].
Definition sample_priced : DataFrame :=
  frame_of_table [("勤務時間", sample_hours); ("時給", sample_wages)].

(** ** Sample workbooks *)

Definition sample_dir : string := "/app".

(** A workbook with the sheets of January and March only. *)
Definition workbook_without_february : gmap string Table :=
  <["1月" := sample_sheet]> (<["3月" := sample_sheet]> ∅).

Definition world_without_february : World :=
  {| files := <[input_path_of sample_dir 2026 := workbook_without_february]> ∅;
     stdout := [] |}.

(** ** Concatenation *)

(** The cells a frame contributes to column [c] of a concatenation: its
    own column, or NaN on all its rows when it has no such column. *)
Definition column_or_nan (c : string) (df : DataFrame) : list value :=
  fill_missing (nrows df) (columns df !! c).

(** Every column of a frame has one cell per row. *)
Definition rectangular (df : DataFrame) : Prop :=
  forall c col, columns df !! c = Some col -> length col = nrows df.

(** ** Months that can be processed

    A requested month together with its sheet and the columns of the sheet
    that the program reads: the dates as read and as converted, the names
    and the two clock columns. *)
Record MonthSheet : Type := {
  ms_month : Z;
  ms_table : Table;
  ms_dates : list value;
  ms_names : list value;
  ms_in : list value;
  ms_out : list value;
  ms_dts : list value
}.

(** All columns of a sheet have the length of the first. *)
Definition rectangular_table (t : Table) : bool :=
  forallb (fun '(_, col) => (length col =? nrows (frame_of_table t))%nat) t.

(** The sheet of the month is in the workbook at [path], it is
    rectangular and has the four columns, its dates convert, and no
    clock-out lies on the last day a timestamp can hold. *)
Definition month_ready (w : World) (path : string) (s : MonthSheet) : Prop :=
  (exists wb, files w !! path = Some wb /\
              wb !! (str_int (ms_month s) +:+ "月") = Some (ms_table s)) /\
  rectangular_table (ms_table s) = true /\
  columns (frame_of_table (ms_table s)) !! "日付" = Some (ms_dates s) /\
  columns (frame_of_table (ms_table s)) !! "名前" = Some (ms_names s) /\
  columns (frame_of_table (ms_table s)) !! "出勤" = Some (ms_in s) /\
  columns (frame_of_table (ms_table s)) !! "退勤" = Some (ms_out s) /\
  to_datetime (ms_dates s) = Ok (ms_dts s) /\
  Forall below_last_day (parsed_clock (ms_dts s) (ms_out s)).

Definition month_hours (s : MonthSheet) : list value :=
  hours_of (ms_dts s) (ms_in s) (ms_out s).

Definition month_wages (s : MonthSheet) : list value := wages_of (ms_names s).

Definition month_pay (s : MonthSheet) : list value :=
  pay_of (ms_dts s) (ms_names s) (ms_in s) (ms_out s).

Definition month_tags (s : MonthSheet) : list value :=
  replicate (length (ms_in s)) (VInt (ms_month s)).

(** The frame the loop appends for the month. *)
Definition month_result (s : MonthSheet) : DataFrame :=
  month_frame (frame_of_table (ms_table s)) (ms_dts s) (ms_names s) (ms_in s)
    (ms_out s) (ms_month s).

(** The table [main] writes for the months. *)
Definition output_table (sheets : list MonthSheet) : Table :=
  [("日付", List.concat (map ms_dts sheets));
   ("名前", List.concat (map ms_names sheets));
   ("出勤", List.concat (map ms_in sheets));
   ("退勤", List.concat (map ms_out sheets));
   ("勤務時間", List.concat (map month_hours sheets));
   ("時給", List.concat (map month_wages sheets));
   ("給与", List.concat (map month_pay sheets));
   ("対象月", List.concat (map month_tags sheets))].

(** ** A sample workbook with three months *)

Definition day_2026 (m d : Z) : value :=
  VTimestamp (days_from_civil 2026 m d * NS_PER_DAY).

Definition february_sheet : Table :=
  [("日付", [day_2026 2 2; day_2026 2 3]);
   ("名前", [VStr "鈴木"; VStr "田中"]);
   ("出勤", [VStr "10:00"; VStr "23:30"]);
   ("退勤", [VStr "15:45"; VStr "07:15"])].

(** A sheet whose date cell is text. *)
Definition march_sheet : Table :=
  [("日付", [VStr "2026-03-02"]);
   ("名前", [VStr "佐藤"]);
   ("出勤", [VTime 8 30 0 0]);
   ("退勤", [VTime 12 0 0 0])].

Definition january : MonthSheet :=
  {| ms_month := 1; ms_table := sample_sheet;
     ms_dates := sample_dates; ms_names := sample_names;
     ms_in := sample_in; ms_out := sample_out; ms_dts := sample_dates |}.

Definition february : MonthSheet :=
  {| ms_month := 2; ms_table := february_sheet;
     ms_dates := [day_2026 2 2; day_2026 2 3];
     ms_names := [VStr "鈴木"; VStr "田中"];
     ms_in := [VStr "10:00"; VStr "23:30"];
     ms_out := [VStr "15:45"; VStr "07:15"];
     ms_dts := [day_2026 2 2; day_2026 2 3] |}.

Definition march : MonthSheet :=
  {| ms_month := 3; ms_table := march_sheet;
     ms_dates := [VStr "2026-03-02"];
     ms_names := [VStr "佐藤"];
     ms_in := [VTime 8 30 0 0];
     ms_out := [VTime 12 0 0 0];
     ms_dts := [day_2026 3 2] |}.

Definition sample_workbook : gmap string Table :=
  <["1月" := sample_sheet]>
    (<["2月" := february_sheet]> (<["3月" := march_sheet]> ∅)).

Definition sample_world : World :=
  {| files := <[input_path_of sample_dir 2026 := sample_workbook]> ∅;
     stdout := [] |}.

(** ** When the overnight correction fits

    The day added to a clock-out cell must stay in the range of
    [datetime64[ns]]; only the cells that are corrected are concerned. *)
Definition correction_fits (o i : value) : bool :=
  match o with
  | VTimestamp b =>
      if lt_cell o i then in_bounds (b + Timedelta_days 1) else true
  | _ => true
  end.

Definition corrections_fit (outs ins : list value) : bool :=
  forallb (fun b : bool => b) (zip_with correction_fits outs ins).

(** What [calculate_work_hours] does, case by case. *)
Definition work_hours_outcome (df : DataFrame) : result DataFrame :=
  match columns df !! "日付" with
  | None => Raise (KeyError "日付")
  | Some dcol =>
      match to_datetime dcol with
      | Raise e => Raise e
      | Ok dts =>
          match columns df !! "出勤" with
          | None => Raise (KeyError "出勤")
          | Some cin =>
              match columns df !! "退勤" with
              | None => Raise (KeyError "退勤")
              | Some cout =>
                  if corrections_fit (parsed_clock dts cout)
                       (parsed_clock dts cin)
                  then Ok (work_hours_frame df dts cin cout)
                  else Raise OverflowError
              end
          end
      end
  end.

(** The sample sheet with its worked hours. *)
Definition sample_hours_frame : DataFrame :=
  work_hours_frame sample_frame sample_dates sample_in sample_out.

(** The columns a sheet must have. *)
Definition required_columns : list string := ["日付"; "名前"; "出勤"; "退勤"].

(** A frame whose date cell is text that is no date. *)
Definition bad_date_frame : DataFrame :=
  frame_of_table
    [("日付", [VStr "abc"]); ("名前", [VStr "田中"]);
     ("出勤", [VStr "09:00"]); ("退勤", [VStr "18:00"])].

(** A workbook whose February sheet has no clock-out column. *)
Definition february_without_clock_out : Table :=
  [("日付", [day_2026 2 2]); ("名前", [VStr "鈴木"]); ("出勤", [VStr "10:00"])].

Definition world_with_bad_february : World :=
  {| files :=
       <[input_path_of sample_dir 2026 :=
           <["2月" := february_without_clock_out]> sample_workbook]> ∅;
     stdout := [] |}.

Definition empty_world : World := {| files := ∅; stdout := [] |}.

(** The sample world after a run on the months 2, 1, 3. *)
Definition sample_world_after : World :=
  {| files :=
       <[output_path_of sample_dir 2026 [2; 1; 3] :=
           {["Sheet1" := output_table [february; january; march]]}]>
         (files sample_world);
     stdout := ["勤務時間の計算が完了しました"] |}.

(** ** Checking a property on a run of integers

    [check_span p depth lo] tests [p] on the [2 ^ depth] integers from
    [lo] on. *)
Fixpoint check_span (p : Z -> bool) (depth : nat) (lo : Z) : bool :=
  match depth with
  | O => p lo
  | S d => check_span p d lo && check_span p d (lo + 2 ^ Z.of_nat d)
  end.

(** The day [z] of the 400 years from 0000-03-01 on has a valid civil
    date, in the years 0 to 400, from which [days_from_civil] gives [z]
    back. *)
Definition civil_round_trip (z : Z) : bool :=
  if 146097 <=? z + 719468 then true
  else
    let '(y, m, d) := civil_from_days z in
    valid_date y m d && (days_from_civil y m d =? z) &&
    (0 <=? y) && (y <=? 400).

(** A cell of a date column that holds dates only: a timestamp at
    midnight, or NaT. *)
Definition is_midnight (v : value) : bool :=
  match v with
  | VTimestamp ns => ns mod NS_PER_DAY =? 0
  | VNaT => true
  | _ => false
  end.

(** A workbook in which only the February sheet has a remarks column. *)
Definition february_with_remarks : Table :=
  (february_sheet ++ [("備考", [VStr "遅刻"; VNaN])])%list.

Definition world_with_remarks : World :=
  {| files :=
       <[input_path_of sample_dir 2026 :=
           <["2月" := february_with_remarks]> sample_workbook]> ∅;
     stdout := [] |}.

Definition remarks_run : DataFrame :=
  concat2
    (month_frame (frame_of_table february_with_remarks) (ms_dts february)
       (ms_names february) (ms_in february) (ms_out february) 2)
    (month_result march).


(** * Properties *)

(** ** What [calculate_work_hours] computes *)

Lemma result_bind_Ok {A B} (f : A -> result B) (a : A) : (Ok a ≫= f) = f a.
Proof. reflexivity. Qed.

Lemma getcol_Some df c col : columns df !! c = Some col -> getcol df c = Ok col.
Proof. unfold getcol. intros ->. reflexivity. Qed.

Lemma convert_timestamps_Ok df dcol cin cout dts :
  columns df !! "日付" = Some dcol ->
  columns df !! "出勤" = Some cin ->
  columns df !! "退勤" = Some cout ->
  to_datetime dcol = Ok dts ->
  convert_timestamps df =
    Ok (setcol (setcol (setcol df "日付" dts)
                  "出勤_dt" (parsed_clock dts cin))
          "退勤_dt" (parsed_clock dts cout)).
Proof.
  intros Hd Hi Ho Hc. unfold convert_timestamps.
  rewrite (getcol_Some _ _ _ Hd), result_bind_Ok, Hc, result_bind_Ok.
  cbv zeta.
  rewrite (getcol_Some (setcol df "日付" dts) "日付" dts); [|apply lookup_insert_eq].
  rewrite result_bind_Ok.
  rewrite (getcol_Some (setcol df "日付" dts) "出勤" cin).
  2:{ simpl. rewrite lookup_insert_ne; done. }
  rewrite result_bind_Ok.
  rewrite (getcol_Some _ "日付" dts).
  2:{ simpl. rewrite lookup_insert_ne; [apply lookup_insert_eq|done]. }
  rewrite result_bind_Ok.
  rewrite (getcol_Some _ "退勤" cout).
  2:{ simpl. rewrite !lookup_insert_ne; done. }
  reflexivity.
Qed.

Lemma loc_iadd_cells outs ins :
  Forall day_fits outs ->
  mapM (fun '(b, v) =>
          if b : bool then add_timedelta (Timedelta_days 1) v else Ok v)
       (zip (series_lt outs ins) outs)
  = Ok (zip_with corrected_cell outs ins).
Proof.
  intros H. revert ins.
  induction H as [|o outs Ho _ IH]; intros [|i ins]; try reflexivity.
  cbn [series_lt zip_with zip mapM]. 
  change (zip_with lt_cell outs ins) with (series_lt outs ins).
  change (zip_with pair (series_lt outs ins) outs) with (zip (series_lt outs ins) outs).
  rewrite IH. unfold corrected_cell at 1.
  destruct o; cbn; try reflexivity.
  destruct i; cbn; try reflexivity.
  destruct (ns <? ns0); cbn; [|reflexivity].
  cbn in Ho. rewrite Ho. reflexivity.
Qed.

Lemma parse_datetime_in_bounds s ns :
  parse_datetime s = Some ns -> in_bounds ns = true.
Proof.
  unfold parse_datetime. destruct (parse_date s) as [[d r]|]; [|discriminate].
  cbn. destruct (match r with EmptyString => _ | String _ _ => _ end) as [n|]; [|discriminate].
  cbn. destruct (in_bounds n) eqn:E; [|discriminate]. intros [= <-]. exact E.
Qed.

Lemma parsed_clock_in_bounds dts c k ns :
  parsed_clock dts c !! k = Some (VTimestamp ns) -> in_bounds ns = true.
Proof.
  unfold parsed_clock, to_datetime_coerce. rewrite list_lookup_fmap.
  destruct (date_clock_text dts c !! k) as [s|]; [|discriminate]. cbn.
  unfold to_datetime_coerce_cell. destruct (parse_datetime s) eqn:E; [|discriminate].
  intros [= <-]. eauto using parse_datetime_in_bounds.
Qed.

Lemma below_last_day_fits col :
  (forall k ns, col !! k = Some (VTimestamp ns) -> in_bounds ns = true) ->
  Forall below_last_day col -> Forall day_fits col.
Proof.
  intros Hb H. apply Forall_lookup_2. intros k v Hk.
  pose proof (Forall_lookup_1 _ _ _ _ H Hk) as Hv.
  destruct v; cbn in *; try exact I.
  specialize (Hb _ _ Hk). unfold in_bounds, Timedelta_days, NS_PER_DAY, NS_PER_SECOND in *.
  apply andb_true_iff in Hb as [H1 H2].
  apply andb_true_iff. split; [apply Z.ltb_lt; apply Z.ltb_lt in H1; lia | apply Z.ltb_lt; lia].
Qed.

Section WorkHours.
Variables (df : DataFrame) (dcol cin cout dts : list value).
Hypothesis has_date : columns df !! "日付" = Some dcol.
Hypothesis has_in : columns df !! "出勤" = Some cin.
Hypothesis has_out : columns df !! "退勤" = Some cout.
Hypothesis dates_convert : to_datetime dcol = Ok dts.
Hypothesis no_overflow : Forall below_last_day (parsed_clock dts cout).

Lemma overnight_correction_Ok :
  exists df1,
  convert_timestamps df = Ok df1 /\
  columns df1 !! "出勤_dt" = Some (parsed_clock dts cin) /\
  columns df1 !! "退勤_dt" = Some (parsed_clock dts cout) /\
  overnight_correction df1 =
    Ok (setcol df1 "退勤_dt" (corrected_out dts cin cout)).
Proof.
  eexists. split; [eapply convert_timestamps_Ok; eauto|].
  split; [by cbn; col_lookup|]. split; [by cbn; col_lookup|].
  unfold overnight_correction, loc_iadd. run_getcol.
  rewrite loc_iadd_cells; [reflexivity|].
  apply below_last_day_fits; [|exact no_overflow].
  intros k ns. apply parsed_clock_in_bounds.
Qed.

Lemma work_hours_column_Ok :
  exists df1 df2,
  convert_timestamps df = Ok df1 /\
  overnight_correction df1 = Ok df2 /\
  work_hours_column df2 = Ok (with_hours df dts cin cout).
Proof.
  destruct overnight_correction_Ok as (df1 & H1 & _ & _ & H2).
  exists df1, (setcol df1 "退勤_dt" (corrected_out dts cin cout)).
  split; [exact H1|]. split; [exact H2|].
  rewrite (convert_timestamps_Ok _ _ _ _ _ has_date has_in has_out dates_convert) in H1.
  injection H1 as <-.
  unfold work_hours_column. run_getcol. reflexivity.
Qed.

Lemma calculate_work_hours_Ok :
  calculate_work_hours df = Ok (work_hours_frame df dts cin cout).
Proof.
  destruct work_hours_column_Ok as (df1 & df2 & H1 & H2 & H3).
  unfold calculate_work_hours.
  rewrite H1, result_bind_Ok, H2, result_bind_Ok, H3, result_bind_Ok.
  unfold with_hours, work_hours_frame, setcol. cbn.
  repeat (col_lookup; cbn [drop_columns columns nrows]).
  f_equal. f_equal.
  apply map_eq. intros c.
  destruct (decide (c = "勤務時間")) as [->|n1]; [by col_lookup|].
  destruct (decide (c = "退勤_dt")) as [->|n2]; [by col_lookup|].
  destruct (decide (c = "出勤_dt")) as [->|n3]; [by col_lookup|].
  destruct (decide (c = "日付")) as [->|n4]; [by col_lookup|].
  by col_lookup.
Qed.
End WorkHours.

(** ** Rounding *)

Lemma rint_close (q : Q) :
  (Qabs (q - inject_Z (rint q)) <= 1 # 2)%Q /\
  ((Qabs (q - inject_Z (rint q)) == 1 # 2)%Q -> Z.even (rint q) = true).
Proof.
  pose proof (Qfloor_le q) as Hlo. pose proof (Qlt_floor q) as Hhi.
  unfold rint. set (f := Qfloor q) in *.
  rewrite inject_Z_plus in Hhi. change (inject_Z 1) with 1%Q in Hhi.
  destruct (Qcompare_spec (q - inject_Z f) (1 # 2)) as [He|Hl|Hg].
  - destruct (Z.even f) eqn:Ev.
    + split; [|intros _; exact Ev]. apply Qabs_Qle_condition. split; lra.
    + split.
      * rewrite inject_Z_plus. change (inject_Z 1) with 1%Q.
        apply Qabs_Qle_condition. split; lra.
      * intros _. rewrite Z.even_add, Ev. reflexivity.
  - split; [apply Qabs_Qle_condition; split; lra|].
    intros Habs. exfalso.
    rewrite Qabs_pos in Habs by lra. lra.
  - rewrite inject_Z_plus. change (inject_Z 1) with 1%Q.
    split; [apply Qabs_Qle_condition; split; lra|].
    intros Habs. exfalso.
    rewrite Qabs_neg in Habs by lra. lra.
Qed.

(** ** The parser *)

Lemma digit_val_range c d : digit_val c = Some d -> 0 <= d <= 9.
Proof.
  unfold digit_val. destruct (_ && _) eqn:E; [|discriminate].
  intros [= <-]. apply andb_true_iff in E as [H1 H2]. lia.
Qed.

Lemma digit_val_space : digit_val " " = None.
Proof. reflexivity. Qed.

Lemma read_digits_range k acc s v r :
  read_digits k acc s = Some (v, r) ->
  0 <= acc ->
  0 <= v.
Proof.
  revert acc s. induction k as [|k IH]; intros acc s; cbn.
  - intros [= <- _]. auto.
  - destruct s as [|c s]; [discriminate|].
    destruct (digit_val c) as [d|] eqn:E; [|discriminate].
    intros H Hacc. apply digit_val_range in E. eapply IH; [exact H|lia].
Qed.

Lemma read_1or2_range s v r : read_1or2 s = Some (v, r) -> 0 <= v.
Proof.
  unfold read_1or2. destruct (read_digits 2 0 s) as [[v' r']|] eqn:E.
  - intros [= <- _]. eapply read_digits_range; [exact E|lia].
  - intros H. eapply read_digits_range; [exact H|lia].
Qed.

Lemma read_frac_range s scale acc f :
  read_frac s scale acc = Some f ->
  0 <= scale -> 0 <= acc ->
  acc <= f <= acc + Z.max (scale - 1) 0.
Proof.
  revert scale acc. induction s as [|c s IH]; intros scale acc; cbn.
  - intros [= <-]. lia.
  - destruct (digit_val c) as [d|] eqn:E; [|discriminate].
    intros H Hs Ha. apply digit_val_range in E.
    pose proof (Z.mul_div_le scale 10 ltac:(lia)) as Hle.
    assert (0 <= scale / 10) as Hq by (apply Z.div_pos; lia).
    assert (0 <= acc + d * (scale / 10)) as Hacc by nia.
    specialize (IH _ _ H Hq Hacc). nia.
Qed.

Lemma parse_clock_range s t : parse_clock s = Some t -> 0 <= t < NS_PER_DAY.
Proof.
  unfold parse_clock, NS_PER_DAY, NS_PER_SECOND.
  destruct (read_1or2 s) as [[h s1]|] eqn:Eh; [|discriminate]. cbn.
  apply read_1or2_range in Eh.
  destruct (24 <=? h) eqn:Hh; [discriminate|]. apply Z.leb_gt in Hh.
  destruct s1 as [|c1 s2].
  { destruct (_ =? _)%nat; [|discriminate]. intros [= <-]. lia. }
  destruct (Ascii.eqb c1 ":"); [|discriminate]. cbn.
  destruct (read_1or2 s2) as [[mi s3]|] eqn:Em; [|discriminate]. cbn.
  apply read_1or2_range in Em.
  destruct (60 <=? mi) eqn:Hm; [discriminate|]. apply Z.leb_gt in Hm.
  destruct s3 as [|c3 s4]; [intros [= <-]; lia|].
  destruct (Ascii.eqb c3 ":"); [|discriminate]. cbn.
  destruct (read_1or2 s4) as [[sec s5]|] eqn:Es; [|discriminate]. cbn.
  apply read_1or2_range in Es.
  destruct (60 <=? sec) eqn:Hs; [discriminate|]. apply Z.leb_gt in Hs.
  destruct s5 as [|c5 s6]; [intros [= <-]; lia|].
  destruct (Ascii.eqb c5 "."); [|discriminate]. cbn.
  destruct s6 as [|c6 s7]; [discriminate|].
  destruct (read_frac (String c6 s7) 1000000000 0) as [f|] eqn:Ef; [|discriminate].
  cbn. intros [= <-]. apply read_frac_range in Ef; lia.
Qed.

Lemma string_app_nil (s : string) : "" +:+ s = s.
Proof. reflexivity. Qed.

Lemma string_app_cons (c : ascii) (s t : string) :
  String c s +:+ t = String c (s +:+ t).
Proof. reflexivity. Qed.

Lemma string_app_assoc (a b c : string) : (a +:+ b) +:+ c = a +:+ (b +:+ c).
Proof.
  induction a as [|x a IH]; [reflexivity|].
  rewrite !string_app_cons. by rewrite IH.
Qed.

Lemma read_digits_stops k acc : stops_before_space (read_digits k acc).
Proof.
  revert acc. induction k as [|k IH]; intros acc q x v r; cbn.
  - intros [= <- <-]. exists q. split; reflexivity.
  - destruct q as [|c q]; rewrite ?string_app_nil, ?string_app_cons.
    + rewrite digit_val_space. discriminate.
    + destruct (digit_val c) as [d|] eqn:Ed; [|discriminate].
      intros H. destruct (IH _ _ _ _ _ H) as (q' & -> & Hy).
      exists q'. split; [reflexivity|]. intros y.
      rewrite string_app_cons. cbn [read_digits]. rewrite Ed. apply Hy.
Qed.

Lemma expect_dash_stops :
  stops_before_space (fun s => r ← expect "-" s; Some (tt, r)).
Proof.
  intros q x [] r. destruct q as [|c q];
    rewrite ?string_app_nil, ?string_app_cons.
  - intros H. vm_compute in H. discriminate.
  - unfold expect. destruct (Ascii.eqb "-" c) eqn:Ec; [|discriminate].
    cbn -[Ascii.eqb]. intros [= <-]. exists q. split; [reflexivity|].
    intros y. rewrite string_app_cons, Ec. reflexivity.
Qed.

Lemma parse_date_stops : stops_before_space parse_date.
Proof.
  intros q x v r. unfold parse_date.
  destruct (read_digits 4 0 (q +:+ String " " x)) as [[y1 s1]|] eqn:E1;
    [|discriminate].
  destruct (read_digits_stops _ _ _ _ _ _ E1) as (q1 & -> & H1). cbn [mbind option_bind].
  destruct (expect "-" (q1 +:+ String " " x)) as [s2|] eqn:E2; [|discriminate].
  destruct (expect_dash_stops q1 x tt s2) as (q2 & -> & H2);
    [by rewrite E2|]. cbn [mbind option_bind].
  destruct (read_digits 2 0 (q2 +:+ String " " x)) as [[m1 s3]|] eqn:E3;
    [|discriminate].
  destruct (read_digits_stops _ _ _ _ _ _ E3) as (q3 & -> & H3). cbn [mbind option_bind].
  destruct (expect "-" (q3 +:+ String " " x)) as [s4|] eqn:E4; [|discriminate].
  destruct (expect_dash_stops q3 x tt s4) as (q4 & -> & H4);
    [by rewrite E4|]. cbn [mbind option_bind].
  destruct (read_digits 2 0 (q4 +:+ String " " x)) as [[d1 s5]|] eqn:E5;
    [|discriminate].
  destruct (read_digits_stops _ _ _ _ _ _ E5) as (q5 & -> & H5). cbn [mbind option_bind].
  destruct (valid_date y1 m1 d1) eqn:Ev; [|discriminate].
  intros [= <- <-]. exists q5. split; [reflexivity|]. intros y.
  rewrite H1. cbn [mbind option_bind].
  specialize (H2 y). destruct (expect "-" (q1 +:+ String " " y)); [|discriminate].
  injection H2 as ->. cbn [mbind option_bind]. rewrite H3. cbn [mbind option_bind].
  specialize (H4 y). destruct (expect "-" (q3 +:+ String " " y)); [|discriminate].
  injection H4 as ->. cbn [mbind option_bind]. rewrite H5. cbn [mbind option_bind]. rewrite Ev. reflexivity.
Qed.

(** Two texts that share their beginning up to a space and both parse
    denote timestamps of the same day. *)
Lemma parse_datetime_same_day q x y a b :
  parse_datetime (q +:+ String " " x) = Some a ->
  parse_datetime (q +:+ String " " y) = Some b ->
  a / NS_PER_DAY = b / NS_PER_DAY.
Proof.
  unfold parse_datetime.
  destruct (parse_date (q +:+ String " " x)) as [[d r]|] eqn:E; [|discriminate].
  destruct (parse_date_stops _ _ _ _ E) as (q' & -> & Hy).
  rewrite (Hy y). cbn.
  assert (forall z n,
    match q' +:+ String " " z with
    | "" => Some (d * NS_PER_DAY)
    | String c rest' =>
        if Ascii.eqb c " " || Ascii.eqb c "T"
        then parse_clock rest' ≫= (fun t => Some (d * NS_PER_DAY + t))
        else None
    end = Some n -> n / NS_PER_DAY = d) as Hday.
  { intros z n. destruct (q' +:+ String " " z) as [|c rest] eqn:Eq.
    - destruct q'; discriminate.
    - destruct (_ || _); [|discriminate].
      destruct (parse_clock rest) as [t|] eqn:Et; [|discriminate].
      cbn. intros [= <-]. apply parse_clock_range in Et.
      assert (0 < NS_PER_DAY) by reflexivity.
      symmetry. apply (Z.div_unique_pos _ _ d t); lia. }
  intros Ha Hb.
  destruct (match q' +:+ String " " x with "" => _ | String _ _ => _ end)
    as [na|] eqn:Ea; [|discriminate].
  destruct (match q' +:+ String " " y with "" => _ | String _ _ => _ end)
    as [nb|] eqn:Eb; [|discriminate].
  cbn in Ha, Hb.
  destruct (in_bounds na); [|discriminate].
  destruct (in_bounds nb); [|discriminate].
  injection Ha as <-. injection Hb as <-.
  rewrite (Hday _ _ Ea), (Hday _ _ Eb). reflexivity.
Qed.

Lemma has_space_app a b : has_space (a +:+ b) = has_space a || has_space b.
Proof.
  induction a as [|c a IH]; [reflexivity|].
  rewrite string_app_cons. cbn [has_space]. rewrite IH. apply orb_assoc.
Qed.

Lemma digit_not_space c d : digit_val c = Some d -> Ascii.eqb c " " = false.
Proof.
  intros H. destruct (Ascii.eqb_spec c " ") as [->|]; [|reflexivity].
  rewrite digit_val_space in H. discriminate.
Qed.

Lemma read_digits_no_space k acc s v r :
  read_digits k acc s = Some (v, r) -> has_space s = has_space r.
Proof.
  revert acc s. induction k as [|k IH]; intros acc s; cbn [read_digits].
  - intros [= _ <-]. reflexivity.
  - destruct s as [|c s]; [discriminate|].
    destruct (digit_val c) as [d|] eqn:Ed; [|discriminate].
    intros H. cbn [has_space]. rewrite (digit_not_space _ _ Ed).
    exact (IH _ _ H).
Qed.

Lemma read_1or2_no_space s v r :
  read_1or2 s = Some (v, r) -> has_space s = has_space r.
Proof.
  unfold read_1or2. destruct (read_digits 2 0 s) as [[v' r']|] eqn:E.
  - intros [= _ <-]. eapply read_digits_no_space, E.
  - apply read_digits_no_space.
Qed.

Lemma read_frac_no_space s scale acc f :
  read_frac s scale acc = Some f -> has_space s = false.
Proof.
  revert scale acc. induction s as [|c s IH]; intros scale acc; cbn [read_frac].
  - reflexivity.
  - destruct (digit_val c) as [d|] eqn:Ed; [|discriminate].
    intros H. cbn [has_space]. rewrite (digit_not_space _ _ Ed).
    exact (IH _ _ H).
Qed.

Lemma sep_not_space (c sep : ascii) :
  Ascii.eqb sep " " = false -> negb (Ascii.eqb c sep) = false ->
  Ascii.eqb c " " = false.
Proof.
  intros Hs Hc. apply negb_false_iff, Ascii.eqb_eq in Hc. by subst.
Qed.

Lemma parse_clock_no_space s t : parse_clock s = Some t -> has_space s = false.
Proof.
  unfold parse_clock.
  destruct (read_1or2 s) as [[h s1]|] eqn:Eh; [|discriminate].
  cbn [mbind option_bind]. rewrite (read_1or2_no_space _ _ _ Eh).
  destruct (24 <=? h); [discriminate|].
  destruct s1 as [|c1 s2]; [reflexivity|].
  destruct (negb (Ascii.eqb c1 ":")) eqn:E1; [discriminate|].
  cbn [has_space]. rewrite (sep_not_space c1 ":" eq_refl E1).
  destruct (read_1or2 s2) as [[mi s3]|] eqn:Em; [|discriminate].
  cbn [mbind option_bind orb]. rewrite (read_1or2_no_space _ _ _ Em).
  destruct (60 <=? mi); [discriminate|].
  destruct s3 as [|c3 s4]; [reflexivity|].
  destruct (negb (Ascii.eqb c3 ":")) eqn:E3; [discriminate|].
  cbn [has_space]. rewrite (sep_not_space c3 ":" eq_refl E3).
  destruct (read_1or2 s4) as [[sec s5]|] eqn:Es; [|discriminate].
  cbn [mbind option_bind orb]. rewrite (read_1or2_no_space _ _ _ Es).
  destruct (60 <=? sec); [discriminate|].
  destruct s5 as [|c5 s6]; [reflexivity|].
  destruct (negb (Ascii.eqb c5 ".")) eqn:E5; [discriminate|].
  cbn [has_space]. rewrite (sep_not_space c5 "." eq_refl E5).
  destruct s6 as [|c6 s7]; [discriminate|].
  destruct (read_frac (String c6 s7) NS_PER_SECOND 0) as [f|] eqn:Ef;
    [|discriminate].
  intros _. cbn [orb]. eapply read_frac_no_space, Ef.
Qed.

(** A text [q x] that parses is a date followed by the clock [x]: the
    timestamp is the day of [q] plus the time [x] denotes, and [q] gives
    the same day with every other clock. *)
Lemma parse_datetime_date_clock q x a :
  parse_datetime (q +:+ String " " x) = Some a ->
  exists d t,
    parse_clock x = Some t /\ a = d * NS_PER_DAY + t /\
    forall y b,
      parse_datetime (q +:+ String " " y) = Some b ->
      exists t', parse_clock y = Some t' /\ b = d * NS_PER_DAY + t'.
Proof.
  unfold parse_datetime.
  destruct (parse_date (q +:+ String " " x)) as [[d r]|] eqn:E; [|discriminate].
  destruct (parse_date_stops _ _ _ _ E) as (q' & -> & Hy).
  cbn [mbind option_bind].
  assert (forall z n,
    match q' +:+ String " " z with
    | "" => Some (d * NS_PER_DAY)
    | String c rest' =>
        if Ascii.eqb c " " || Ascii.eqb c "T"
        then parse_clock rest' ≫= (fun t => Some (d * NS_PER_DAY + t))
        else None
    end = Some n ->
    exists t, parse_clock z = Some t /\ n = d * NS_PER_DAY + t) as Hclock.
  { intros z n. destruct q' as [|c q''].
    - rewrite string_app_nil.
      change (Ascii.eqb " " " " || Ascii.eqb " " "T") with true.
      cbv iota. destruct (parse_clock z) as [t|]; [|discriminate].
      intros [= <-]. eauto.
    - rewrite string_app_cons. destruct (_ || _); [|discriminate].
      destruct (parse_clock (q'' +:+ String " " z)) as [t|] eqn:Et;
        [|discriminate].
      apply parse_clock_no_space in Et. rewrite has_space_app in Et.
      cbn in Et. rewrite orb_true_r in Et. discriminate. }
  destruct (match q' +:+ String " " x with "" => _ | String _ _ => _ end)
    as [na|] eqn:Ea; [|discriminate].
  cbn [mbind option_bind]. destruct (in_bounds na); [|discriminate].
  intros [= <-]. destruct (Hclock _ _ Ea) as (t & Ht & ->).
  exists d, t. split; [exact Ht|]. split; [reflexivity|].
  intros y b. rewrite (Hy y). cbn [mbind option_bind].
  destruct (match q' +:+ String " " y with "" => _ | String _ _ => _ end)
    as [nb|] eqn:Eb; [|discriminate].
  cbn [mbind option_bind]. destruct (in_bounds nb); [|discriminate].
  intros [= <-]. exact (Hclock _ _ Eb).
Qed.

(** ** Rows *)

Lemma date_clock_text_lookup dts c k s :
  date_clock_text dts c !! k = Some s ->
  exists d x, astype_str dts !! k = Some d /\ astype_str c !! k = Some x /\
              s = d +:+ String " " x.
Proof.
  unfold date_clock_text, str_add, str_add_scalar.
  rewrite lookup_zip_with, list_lookup_fmap.
  destruct (astype_str dts !! k) as [d|]; [|discriminate].
  destruct (astype_str c !! k) as [x|]; [|discriminate].
  cbn. intros [= <-]. exists d, x. split; [reflexivity|]. split; [reflexivity|].
  apply string_app_assoc.
Qed.

Lemma parsed_clock_lookup dts c k ns :
  parsed_clock dts c !! k = Some (VTimestamp ns) ->
  exists d x, astype_str dts !! k = Some d /\ astype_str c !! k = Some x /\
              parse_datetime (d +:+ String " " x) = Some ns.
Proof.
  unfold parsed_clock, to_datetime_coerce. rewrite list_lookup_fmap.
  destruct (date_clock_text dts c !! k) as [s|] eqn:E; [|discriminate].
  destruct (date_clock_text_lookup _ _ _ _ E) as (d & x & Hd & Hx & ->).
  cbn. unfold to_datetime_coerce_cell.
  destruct (parse_datetime _) as [n|] eqn:Ep; [|discriminate].
  intros [= <-]. eauto.
Qed.

Lemma parsed_clock_cell dts c k v :
  parsed_clock dts c !! k = Some v -> v = VNaT \/ exists ns, v = VTimestamp ns.
Proof.
  unfold parsed_clock, to_datetime_coerce. rewrite list_lookup_fmap.
  destruct (date_clock_text dts c !! k) as [s|]; [|discriminate].
  cbn. unfold to_datetime_coerce_cell.
  destruct (parse_datetime s); intros [= <-]; eauto.
Qed.

(** The clock-in and clock-out timestamps of a row lie on the same day. *)
Lemma parsed_same_day dts cin cout k a b :
  parsed_clock dts cin !! k = Some (VTimestamp a) ->
  parsed_clock dts cout !! k = Some (VTimestamp b) ->
  exists d ta tb,
    a = d * NS_PER_DAY + ta /\ b = d * NS_PER_DAY + tb /\
    0 <= ta < NS_PER_DAY /\ 0 <= tb < NS_PER_DAY.
Proof.
  intros Ha Hb.
  destruct (parsed_clock_lookup _ _ _ _ Ha) as (d1 & x & Hd1 & _ & Hpa).
  destruct (parsed_clock_lookup _ _ _ _ Hb) as (d2 & y & Hd2 & _ & Hpb).
  rewrite Hd1 in Hd2. injection Hd2 as <-.
  destruct (parse_datetime_date_clock _ _ _ Hpa) as (d & ta & Hta & -> & Hy).
  destruct (Hy _ _ Hpb) as (tb & Htb & ->).
  exists d, ta, tb.
  split; [reflexivity|]. split; [reflexivity|].
  split; eapply parse_clock_range; eassumption.
Qed.

Lemma corrected_out_lookup dts cin cout k i o :
  parsed_clock dts cin !! k = Some i ->
  parsed_clock dts cout !! k = Some o ->
  corrected_out dts cin cout !! k = Some (corrected_cell o i).
Proof.
  intros Hi Ho. unfold corrected_out. rewrite lookup_zip_with, Ho, Hi.
  reflexivity.
Qed.

Lemma hours_of_lookup dts cin cout k i o :
  parsed_clock dts cin !! k = Some i ->
  parsed_clock dts cout !! k = Some o ->
  hours_of dts cin cout !! k =
    Some (hours_cell (sub_cell (corrected_cell o i) i)).
Proof.
  intros Hi Ho. unfold hours_of, series_sub.
  rewrite list_lookup_fmap, lookup_zip_with.
  rewrite (corrected_out_lookup _ _ _ _ _ _ Hi Ho), Hi. reflexivity.
Qed.

Lemma hours_of_lookup_inv dts cin cout k v :
  hours_of dts cin cout !! k = Some v ->
  exists i o,
    parsed_clock dts cin !! k = Some i /\
    parsed_clock dts cout !! k = Some o /\
    v = hours_cell (sub_cell (corrected_cell o i) i).
Proof.
  unfold hours_of, series_sub, corrected_out.
  rewrite list_lookup_fmap, !lookup_zip_with.
  destruct (parsed_clock dts cout !! k) as [o|]; [|discriminate].
  destruct (parsed_clock dts cin !! k) as [i|]; [|discriminate].
  cbn. intros [= <-]. eauto.
Qed.

(** ** Hours *)

Lemma hours_cell_None : hours_cell None = VNaN.
Proof. reflexivity. Qed.

Lemma hours_cell_Some ns :
  hours_cell (Some ns) =
    VFloat (Qred (inject_Z (rint (elapsed_hours ns * 100)) / 100)).
Proof. reflexivity. Qed.

Lemma hours_cell_rounds ns :
  exists h, hours_cell (Some ns) = VFloat h /\
            rounds_to_2_decimals (elapsed_hours ns) h.
Proof.
  eexists. split; [apply hours_cell_Some|].
  exists (rint (elapsed_hours ns * 100)).
  set (x := elapsed_hours ns).
  destruct (rint_close (x * 100)) as [Hc He].
  set (n := rint (x * 100)) in *.
  rewrite Qred_correct.
  split; [reflexivity|].
  assert (inject_Z n / 100 == inject_Z n * (1 # 100))%Q as -> by reflexivity.
  apply Qabs_Qle_condition in Hc as [H1 H2].
  split.
  - apply Qabs_Qle_condition. split; lra.
  - intros Ht. apply He.
    destruct (Qlt_le_dec (x - inject_Z n * (1 # 100)) 0) as [Hneg|Hpos].
    + rewrite Qabs_neg in Ht by lra. rewrite Qabs_neg by lra. lra.
    + rewrite Qabs_pos in Ht by lra. rewrite Qabs_pos by lra. lra.
Qed.

Lemma rint_nonneg q : (0 <= q)%Q -> 0 <= rint q.
Proof.
  intros Hq. assert (0 <= Qfloor q) as Hf.
  { change 0 with (Qfloor 0). by apply Qfloor_resp_le. }
  unfold rint. destruct (_ ?= _)%Q; [destruct (Z.even _)|..]; lia.
Qed.

Lemma hours_cell_nonneg ns :
  0 <= ns -> exists h, hours_cell (Some ns) = VFloat h /\ (0 <= h)%Q.
Proof.
  intros Hns. eexists. split; [apply hours_cell_Some|].
  rewrite Qred_correct.
  assert (0 <= elapsed_hours ns * 100)%Q as Hx.
  { unfold elapsed_hours, NS_PER_SECOND.
    assert (0 <= inject_Z ns)%Q by (change 0%Q with (inject_Z 0); by rewrite <- Zle_Qle).
    assert (inject_Z ns / inject_Z 1000000000 / 3600 * 100
            == inject_Z ns * (1 # 36000000000))%Q as -> by (unfold Qdiv; cbn; ring).
    lra. }
  apply rint_nonneg in Hx.
  assert (0 <= inject_Z (rint (elapsed_hours ns * 100)))%Q
    by (change 0%Q with (inject_Z 0); by rewrite <- Zle_Qle).
  assert (inject_Z (rint (elapsed_hours ns * 100)) / 100
          == inject_Z (rint (elapsed_hours ns * 100)) * (1 # 100))%Q as ->
    by reflexivity.
  lra.
Qed.

Lemma astype_str_object col k v :
  col !! k = Some v -> is_datetime_cell v = false ->
  astype_str col !! k = Some (str_cell v).
Proof.
  intros Hk Hv. unfold astype_str.
  destruct (forallb is_datetime_cell col) eqn:E.
  - rewrite forallb_forall in E.
    assert (is_datetime_cell v = true) as Hc.
    { apply E, list_elem_of_In, list_elem_of_lookup. eauto. }
    congruence.
  - rewrite list_lookup_fmap, Hk. reflexivity.
Qed.

Lemma Timedelta_one_day : Timedelta_days 1 = ONE_DAY.
Proof. vm_compute. reflexivity. Qed.

Lemma corrected_cell_timestamps a b :
  corrected_cell (VTimestamp b) (VTimestamp a) =
    VTimestamp (if b <? a then b + ONE_DAY else b).
Proof.
  unfold corrected_cell, lt_cell. rewrite Timedelta_one_day.
  destruct (b <? a); reflexivity.
Qed.




(** ** Worked hours of a row *)

Lemma hours_of_timestamps dts cin cout k a b :
  parsed_clock dts cin !! k = Some (VTimestamp a) ->
  parsed_clock dts cout !! k = Some (VTimestamp b) ->
  hours_of dts cin cout !! k =
    Some (hours_cell (Some ((if b <? a then b + ONE_DAY else b) - a))).
Proof.
  intros Ha Hb.
  rewrite (hours_of_lookup _ _ _ _ _ _ Ha Hb), corrected_cell_timestamps.
  reflexivity.
Qed.

Lemma hours_of_null dts cin cout k i o :
  parsed_clock dts cin !! k = Some i ->
  parsed_clock dts cout !! k = Some o ->
  i = VNaT \/ o = VNaT ->
  hours_of dts cin cout !! k = Some VNaN.
Proof.
  intros Hi Ho Hn. rewrite (hours_of_lookup _ _ _ _ _ _ Hi Ho).
  destruct Hn as [-> | ->]; [|reflexivity].
  destruct (parsed_clock_cell _ _ _ _ Ho) as [-> | [b ->]]; reflexivity.
Qed.

Lemma work_hours_frame_hours df dts cin cout :
  columns (work_hours_frame df dts cin cout) !! "勤務時間" =
    Some (hours_of dts cin cout).
Proof. cbn. by col_lookup. Qed.




Lemma below_last_day_check (col : list value) :
  forallb is_below_last_day col = true -> Forall below_last_day col.
Proof.
  rewrite forallb_forall, Forall_forall. intros H v Hv.
  specialize (H v (proj1 (list_elem_of_In _ _) Hv)).
  destruct v; try exact I. cbn in *. by apply Z.ltb_lt.
Qed.

Lemma sample_frame_ready :
  columns sample_frame !! "日付" = Some sample_dates /\
  columns sample_frame !! "出勤" = Some sample_in /\
  columns sample_frame !! "退勤" = Some sample_out /\
  to_datetime sample_dates = Ok sample_dates /\
  Forall below_last_day (parsed_clock sample_dates sample_out).
Proof.
  do 4 (split; [vm_compute; reflexivity|]).
  apply below_last_day_check. vm_compute. reflexivity.
Defined.





(** ** One month *)

Lemma process_sheet_Ok df dcol names cin cout dts month :
  columns df !! "日付" = Some dcol ->
  columns df !! "名前" = Some names ->
  columns df !! "出勤" = Some cin ->
  columns df !! "退勤" = Some cout ->
  to_datetime dcol = Ok dts ->
  Forall below_last_day (parsed_clock dts cout) ->
  process_sheet df month = Ok (month_frame df dts names cin cout month).
Proof.
  intros Hd Hn Hi Ho Hc Hov. unfold process_sheet.
  rewrite (calculate_work_hours_Ok df dcol cin cout dts Hd Hi Ho Hc Hov).
  rewrite result_bind_Ok.
  unfold apply_wage_master, work_hours_frame. run_getcol. rewrite Hn.
  cbn [mbind result_bind].
  unfold calculate_salary. run_getcol. reflexivity.
Qed.


(** ** Wages *)

Lemma wage_map_lookup (s : string) :
  wage_map !! s =
    if decide (s = "田中") then Some 1400
    else if decide (s = "鈴木") then Some 1300
    else if decide (s = "佐藤") then Some 1200
    else None.
Proof.
  unfold wage_map.
  destruct (decide (s = "田中")) as [->|n1]; [by rewrite lookup_insert_eq|].
  rewrite lookup_insert_ne by done.
  destruct (decide (s = "鈴木")) as [->|n2]; [by rewrite lookup_insert_eq|].
  rewrite lookup_insert_ne by done.
  destruct (decide (s = "佐藤")) as [->|n3]; [by rewrite lookup_insert_eq|].
  rewrite lookup_insert_ne by done. apply lookup_empty.
Qed.

Lemma wages_of_lookup names k :
  wages_of names !! k =
    (fun v => match v with
              | VStr s => match wage_map !! s with
                          | Some w => VInt w
                          | None => VNaN
                          end
              | _ => VNaN
              end) <$> names !! k.
Proof. unfold wages_of, map_dict. by rewrite list_lookup_fmap. Qed.

(** C9.  [apply_wage_master] returns whenever the frame has a name column;
    the wage column it adds has one cell per name: 1400 for 田中, 1300 for
    鈴木, 1200 for 佐藤, and null for every other cell.  No name raises an
    error and no name gets a default wage. *)
Theorem wage_resolved_from_table (df : DataFrame) (names : list value) :
  columns df !! "名前" = Some names ->
  exists out ws,
    apply_wage_master df = Ok out /\
    columns out !! "時給" = Some ws /\
    length ws = length names /\
    forall k v,
      names !! k = Some v ->
      exists w,
        ws !! k = Some w /\
        (v = VStr "田中" -> w = VInt 1400) /\
        (v = VStr "鈴木" -> w = VInt 1300) /\
        (v = VStr "佐藤" -> w = VInt 1200) /\
        (v <> VStr "田中" -> v <> VStr "鈴木" -> v <> VStr "佐藤" ->
         w = VNaN).
Proof.
  intros Hn. exists (setcol df "時給" (wages_of names)), (wages_of names).
  split; [unfold apply_wage_master; by rewrite (getcol_Some _ _ _ Hn)|].
  split; [cbn; apply lookup_insert_eq|].
  split; [unfold wages_of, map_dict; apply length_map|].
  intros k v Hk. rewrite wages_of_lookup, Hk. cbn [fmap option_fmap option_map].
  eexists. split; [reflexivity|].
  destruct v as [| |s| | | |]; try (repeat split; congruence).
  rewrite wage_map_lookup.
  repeat case_decide; subst; repeat split; try congruence; intros; congruence.
Qed.

(** ** Pay *)

Lemma mul_cell_number h w :
  is_numeric h = true -> is_numeric w = true ->
  match as_number h, as_number w with
  | Some x, Some y =>
      exists z, as_number (mul_cell h w) = Some z /\ (z == x * y)%Q
  | _, _ => mul_cell h w = VNaN
  end.
Proof.
  destruct h, w; cbn; try discriminate; intros _ _; try reflexivity;
    eexists; (split; [reflexivity|]); rewrite ?Qred_correct; reflexivity.
Qed.



Lemma wage_resolved_from_table_witness :
  columns sample_frame !! "名前" = Some sample_names /\
  exists out ws,
    apply_wage_master sample_frame = Ok out /\
    columns out !! "時給" = Some ws /\
    length ws = length sample_names /\
    forall k v,
      sample_names !! k = Some v ->
      exists w,
        ws !! k = Some w /\
        (v = VStr "田中" -> w = VInt 1400) /\
        (v = VStr "鈴木" -> w = VInt 1300) /\
        (v = VStr "佐藤" -> w = VInt 1200) /\
        (v <> VStr "田中" -> v <> VStr "鈴木" -> v <> VStr "佐藤" ->
         w = VNaN).
Proof.
  assert (columns sample_frame !! "名前" = Some sample_names) as H
    by (vm_compute; reflexivity).
  split; [exact H|].
  exact (wage_resolved_from_table sample_frame sample_names H).
Defined.



(** ** Rows whose clock does not parse *)

Lemma pay_of_null_hours dts names cin cout k :
  hours_of dts cin cout !! k = Some VNaN ->
  is_Some (names !! k) ->
  pay_of dts names cin cout !! k = Some VNaN.
Proof.
  intros Hh [v Hv]. unfold pay_of, series_mul.
  rewrite lookup_zip_with, Hh. cbn. rewrite wages_of_lookup, Hv. reflexivity.
Qed.

Lemma corrected_out_null dts cin cout k i o :
  parsed_clock dts cin !! k = Some i ->
  parsed_clock dts cout !! k = Some o ->
  i = VNaT \/ o = VNaT ->
  corrected_out dts cin cout !! k = Some o.
Proof.
  intros Hi Ho Hn. rewrite (corrected_out_lookup _ _ _ _ _ _ Hi Ho).
  destruct Hn as [-> | ->]; [|reflexivity].
  destruct (parsed_clock_cell _ _ _ _ Ho) as [-> | [b ->]]; reflexivity.
Qed.



Lemma sample_frame_names :
  columns sample_frame !! "名前" = Some sample_names.
Proof. vm_compute. reflexivity. Defined.




(** ** Missing sheets *)

Lemma read_excel_missing_sheet w path wb sheet :
  files w !! path = Some wb -> wb !! sheet = None ->
  read_excel w path sheet = Raise (SheetNotFound sheet).
Proof. unfold read_excel. intros -> ->. reflexivity. Qed.

Lemma process_month_missing_sheet w path wb month :
  files w !! path = Some wb ->
  wb !! (str_int month +:+ "月") = None ->
  process_month w path month = Raise (SheetNotFound (str_int month +:+ "月")).
Proof.
  intros Hf Hs. unfold process_month. cbv zeta.
  by rewrite (read_excel_missing_sheet _ _ _ _ Hf Hs).
Qed.

(** The loop stops at the first month that raises. *)
Lemma load_loop_raises w path months month e acc :
  month ∈ months ->
  process_month w path month = Raise e ->
  exists e', load_loop w path months acc = Raise e'.
Proof.
  intros Hin He. revert acc.
  induction months as [|m rest IH]; intros acc; [by apply elem_of_nil in Hin|].
  cbn [load_loop].
  destruct (process_month w path m) as [df|e1] eqn:Em; [|by eexists].
  cbn [mbind result_bind]. apply IH.
  apply elem_of_cons in Hin as [->|Hin]; [congruence|exact Hin].
Qed.

(** The months before the first one that raises are processed and
    discarded with the exception. *)
Lemma load_loop_raises_at w path pre month post e acc :
  Forall (fun m => exists df, process_month w path m = Ok df) pre ->
  process_month w path month = Raise e ->
  load_loop w path (pre ++ month :: post) acc = Raise e.
Proof.
  intros Hpre He. revert acc.
  induction Hpre as [|m pre [df Hm] _ IH]; intros acc.
  - cbn [app load_loop]. by rewrite He.
  - cbn [app load_loop]. rewrite Hm. cbn [mbind result_bind]. apply IH.
Qed.

(** C5.  When the sheet of one of the requested months is absent from the
    input workbook, [main] raises and leaves the files as they were: no
    output file is created or overwritten and nothing is printed.  This
    holds wherever the month stands in the list; when all the months before
    it were processed, the exception is the one for the missing sheet. *)
Theorem missing_sheet_aborts_run
    (year : Z) (target_months : list Z) (base_dir : string) (w : World)
    (wb : gmap string Table) (month : Z) :
  files w !! input_path_of base_dir year = Some wb ->
  month ∈ target_months ->
  wb !! (str_int month +:+ "月") = None ->
  (exists e, main_body year target_months base_dir w = (w, Raise e)) /\
  (forall pre post,
     target_months = (pre ++ month :: post)%list ->
     Forall (fun m => exists df,
               process_month w (input_path_of base_dir year) m = Ok df) pre ->
     main_body year target_months base_dir w =
       (w, Raise (SheetNotFound (str_int month +:+ "月")))).
Proof.
  intros Hf Hin Hs.
  pose proof (process_month_missing_sheet _ _ _ _ Hf Hs) as Hm.
  split.
  - destruct (load_loop_raises _ _ _ _ _ [] Hin Hm) as [e He].
    exists e. unfold main_body, load_and_process_months. cbv zeta.
    by rewrite He.
  - intros pre post -> Hpre.
    unfold main_body, load_and_process_months. cbv zeta.
    by rewrite (load_loop_raises_at _ _ _ _ _ _ [] Hpre Hm).
Qed.

Lemma missing_sheet_aborts_run_witness :
  (exists e, main sample_dir world_without_february =
               (world_without_february, Raise e)) /\
  (forall pre post,
     [1; 2; 3] = (pre ++ 2 :: post)%list ->
     Forall (fun m => exists df,
               process_month world_without_february
                 (input_path_of sample_dir 2026) m = Ok df) pre ->
     main sample_dir world_without_february =
       (world_without_february, Raise (SheetNotFound "2月"))).
Proof.
  apply (missing_sheet_aborts_run 2026 [1; 2; 3] sample_dir
           world_without_february workbook_without_february 2).
  - vm_compute. reflexivity.
  - apply list_elem_of_In. right. left. reflexivity.
  - vm_compute. reflexivity.
Defined.


(** ** Concatenation of frames *)

Lemma column_or_nan_concat2 c a b :
  column_or_nan c (concat2 a b) = (column_or_nan c a ++ column_or_nan c b)%list.
Proof.
  unfold column_or_nan, concat2. cbn [nrows columns].
  rewrite lookup_merge.
  destruct (columns a !! c) as [x|], (columns b !! c) as [y|]; cbn;
    try reflexivity.
  apply replicate_add.
Qed.

Lemma has_column_concat2 c a b :
  is_Some (columns (concat2 a b) !! c) <->
  is_Some (columns a !! c) \/ is_Some (columns b !! c).
Proof.
  unfold concat2. cbn [columns]. rewrite lookup_merge.
  destruct (columns a !! c) as [x|], (columns b !! c) as [y|]; cbn;
    split; eauto; intros [[? [=]]|[? [=]]] || intros [? [=]].
Qed.

Lemma nrows_concat2 a b : nrows (concat2 a b) = (nrows a + nrows b)%nat.
Proof. reflexivity. Qed.

Lemma column_or_nan_foldl c ds d :
  column_or_nan c (foldl concat2 d ds) =
    List.concat (map (column_or_nan c) (d :: ds)).
Proof.
  revert d. induction ds as [|x ds IH]; intros d.
  - cbn. by rewrite app_nil_r.
  - cbn [foldl]. rewrite IH. cbn [map List.concat].
    rewrite column_or_nan_concat2. by rewrite <- app_assoc.
Qed.

Lemma has_column_foldl c ds d :
  is_Some (columns (foldl concat2 d ds) !! c) <->
  Exists (fun df => is_Some (columns df !! c)) (d :: ds).
Proof.
  revert d. induction ds as [|x ds IH]; intros d.
  - cbn. rewrite Exists_cons, Exists_nil. tauto.
  - cbn [foldl]. rewrite IH, !Exists_cons, has_column_concat2. tauto.
Qed.

Lemma nrows_foldl ds d :
  nrows (foldl concat2 d ds) = sum_list (map nrows (d :: ds)).
Proof.
  revert d. induction ds as [|x ds IH]; intros d.
  - cbn. lia.
  - cbn [foldl]. rewrite IH. cbn. lia.
Qed.

Lemma column_or_nan_Some c df col :
  columns df !! c = Some col -> column_or_nan c df = col.
Proof. unfold column_or_nan. by intros ->. Qed.

(** A column of a concatenation, when at least one frame has it. *)
Lemma concat_column c d ds :
  Exists (fun df => is_Some (columns df !! c)) (d :: ds) ->
  columns (foldl concat2 d ds) !! c =
    Some (List.concat (map (column_or_nan c) (d :: ds))).
Proof.
  intros H. apply has_column_foldl in H as [col Hc].
  rewrite Hc. f_equal. rewrite <- column_or_nan_foldl.
  symmetry. by apply column_or_nan_Some.
Qed.


(** ** The months of a run *)

Lemma rectangular_table_frame t :
  rectangular_table t = true -> rectangular (frame_of_table t).
Proof.
  unfold rectangular_table, rectangular. rewrite forallb_forall.
  intros H c col Hc. cbn [columns frame_of_table] in Hc.
  apply elem_of_list_to_map_2, list_elem_of_In in Hc.
  specialize (H _ Hc). cbn in H. by apply Nat.eqb_eq.
Qed.

Lemma process_month_ready w path s :
  month_ready w path s ->
  process_month w path (ms_month s) = Ok (month_result s).
Proof.
  intros ((wb & Hf & Hs) & _ & Hd & Hn & Hi & Ho & Hc & Hov).
  unfold process_month, read_excel. cbv zeta. rewrite Hf, Hs.
  rewrite result_bind_Ok. by apply (process_sheet_Ok _ (ms_dates s)).
Qed.

Lemma load_loop_Ok w path sheets acc :
  Forall (month_ready w path) sheets ->
  load_loop w path (map ms_month sheets) acc =
    Ok (acc ++ map month_result sheets)%list.
Proof.
  intros H. revert acc. induction H as [|s sheets Hs _ IH]; intros acc.
  - cbn. by rewrite app_nil_r.
  - cbn [map load_loop]. rewrite (process_month_ready _ _ _ Hs).
    rewrite result_bind_Ok, IH. by rewrite <- app_assoc.
Qed.

Lemma load_and_process_months_Ok w path s sheets :
  Forall (month_ready w path) (s :: sheets) ->
  load_and_process_months w path (map ms_month (s :: sheets)) =
    Ok (foldl concat2 (month_result s) (map month_result sheets)).
Proof.
  intros H. unfold load_and_process_months.
  rewrite (load_loop_Ok _ _ _ [] H). reflexivity.
Qed.

Lemma mapM_result_length {A B} (f : A -> result B) (l : list A) (k : list B) :
  mapM f l = Ok k -> length k = length l.
Proof.
  revert k. induction l as [|x l IH]; intros k; cbn.
  - by intros [= <-].
  - destruct (f x) as [y|e]; [|discriminate]. cbn.
    destruct (mapM f l) as [k'|e]; [|discriminate]. cbn.
    intros [= <-]. cbn. by rewrite (IH k').
Qed.

Lemma month_ready_length w path s :
  month_ready w path s ->
  length (ms_dts s) = nrows (frame_of_table (ms_table s)) /\
  length (ms_names s) = nrows (frame_of_table (ms_table s)) /\
  length (ms_in s) = nrows (frame_of_table (ms_table s)) /\
  length (ms_out s) = nrows (frame_of_table (ms_table s)).
Proof.
  intros (_ & Hr & Hd & Hn & Hi & Ho & Hc & _).
  apply rectangular_table_frame in Hr.
  pose proof (Hr _ _ Hd) as Ld. pose proof (Hr _ _ Hn) as Ln.
  pose proof (Hr _ _ Hi) as Li. pose proof (Hr _ _ Ho) as Lo.
  apply mapM_result_length in Hc. repeat split; congruence.
Qed.


Lemma month_result_columns w path s :
  month_ready w path s ->
  columns (month_result s) !! "日付" = Some (ms_dts s) /\
  columns (month_result s) !! "名前" = Some (ms_names s) /\
  columns (month_result s) !! "出勤" = Some (ms_in s) /\
  columns (month_result s) !! "退勤" = Some (ms_out s) /\
  columns (month_result s) !! "勤務時間" = Some (month_hours s) /\
  columns (month_result s) !! "時給" = Some (month_wages s) /\
  columns (month_result s) !! "給与" = Some (month_pay s) /\
  columns (month_result s) !! "対象月" = Some (month_tags s).
Proof.
  intros H. destruct (month_ready_length _ _ _ H) as (_ & _ & Li & _).
  destruct H as (_ & _ & Hd & Hn & Hi & Ho & _).
  unfold month_result, month_frame, setcol_scalar, work_hours_frame, setcol.
  cbn [columns nrows].
  repeat split; col_lookup; try done.
  unfold month_tags. by rewrite Li.
Qed.

Lemma months_column w path c (g : MonthSheet -> list value) s sheets :
  (forall s, month_ready w path s -> columns (month_result s) !! c = Some (g s)) ->
  Forall (month_ready w path) (s :: sheets) ->
  columns (foldl concat2 (month_result s) (map month_result sheets)) !! c =
    Some (List.concat (map g (s :: sheets))).
Proof.
  intros Hg H. rewrite concat_column.
  - f_equal. f_equal. change (month_result s :: map month_result sheets)
      with (map month_result (s :: sheets)).
    induction H as [|x l Hx _ IH]; [reflexivity|].
    cbn [map]. f_equal; [|exact IH].
    apply column_or_nan_Some, Hg, Hx.
  - apply Exists_cons_hd. rewrite Hg; [done|]. by inversion H.
Qed.

Lemma to_datetime_cell_kind v y :
  to_datetime_cell v = Ok y -> is_datetime_cell y = true.
Proof.
  unfold to_datetime_cell. intros H.
  repeat case_match; simplify_eq; reflexivity.
Qed.

Lemma to_datetime_cells col dts :
  to_datetime col = Ok dts -> forallb is_datetime_cell dts = true.
Proof.
  unfold to_datetime. revert dts.
  induction col as [|v col IH]; intros dts; cbn.
  - by intros [= <-].
  - destruct (to_datetime_cell v) as [y|e] eqn:Ev; [|discriminate]. cbn.
    destruct (mapM to_datetime_cell col) as [k|e]; [|discriminate]. cbn.
    intros [= <-]. cbn.
    by rewrite (IH k eq_refl), (to_datetime_cell_kind _ _ Ev).
Qed.

Lemma months_columns w path s sheets :
  Forall (month_ready w path) (s :: sheets) ->
  let out := foldl concat2 (month_result s) (map month_result sheets) in
  columns out !! "日付" = Some (List.concat (map ms_dts (s :: sheets))) /\
  columns out !! "名前" = Some (List.concat (map ms_names (s :: sheets))) /\
  columns out !! "出勤" = Some (List.concat (map ms_in (s :: sheets))) /\
  columns out !! "退勤" = Some (List.concat (map ms_out (s :: sheets))) /\
  columns out !! "勤務時間" = Some (List.concat (map month_hours (s :: sheets))) /\
  columns out !! "時給" = Some (List.concat (map month_wages (s :: sheets))) /\
  columns out !! "給与" = Some (List.concat (map month_pay (s :: sheets))) /\
  columns out !! "対象月" = Some (List.concat (map month_tags (s :: sheets))).
Proof.
  intros H out.
  repeat split; apply (months_column w path); try done;
    intros x Hx; by destruct (month_result_columns _ _ _ Hx)
      as (? & ? & ? & ? & ? & ? & ? & ?).
Qed.

Lemma nrows_months w path sheets :
  Forall (month_ready w path) sheets ->
  sum_list (map nrows (map month_result sheets)) =
    sum_list (map (fun s => length (ms_in s)) sheets).
Proof.
  induction 1 as [|x l Hx _ IH]; [reflexivity|].
  cbn [map sum_list sum_list_with]. f_equal; [|exact IH].
  destruct (month_ready_length _ _ _ Hx) as (_ & _ & Li & _).
  by rewrite Li.
Qed.


Lemma select_output_columns w path s sheets :
  Forall (month_ready w path) (s :: sheets) ->
  select_columns (foldl concat2 (month_result s) (map month_result sheets))
    output_columns = Ok (output_table (s :: sheets)).
Proof.
  intros H. unfold select_columns, output_columns, output_table, getcol.
  cbn [mapM].
  destruct (months_columns _ _ _ _ H)
    as (Hd & Hn & Hi & Ho & Hh & Hw & Hp & Ht).
  rewrite Hd, Hn, Hi, Ho, Hh, Hw, Hp, Ht. reflexivity.
Qed.


Lemma months_dates_converted w path sheets :
  Forall (month_ready w path) sheets ->
  forallb is_datetime_cell (List.concat (map ms_dts sheets)) = true.
Proof.
  induction 1 as [|s l Hs _ IH]; [reflexivity|].
  cbn [map List.concat]. rewrite forallb_app, IH, andb_true_r.
  destruct Hs as (_ & _ & _ & _ & _ & _ & Hc & _).
  by apply (to_datetime_cells (ms_dates s)).
Qed.



Ltac month_ready_by_computation :=
  split; [exists sample_workbook; split; vm_compute; reflexivity|];
  do 6 (split; [vm_compute; reflexivity|]);
  apply below_last_day_check; vm_compute; reflexivity.

Lemma sample_months_ready :
  Forall (month_ready sample_world (input_path_of sample_dir 2026))
    [february; january; march].
Proof.
  do 3 (constructor; [month_ready_by_computation|]). constructor.
Defined.



(** The run on the sample workbook, months in the order 2, 1, 3: the tags
    and the worked hours of the nine rows. *)
Example sample_run_columns :
  exists out,
    load_and_process_months sample_world (input_path_of sample_dir 2026)
      [2; 1; 3] = Ok out /\
    columns out !! "対象月" =
      Some [VInt 2; VInt 2; VInt 1; VInt 1; VInt 1; VInt 1; VInt 1; VInt 1;
            VInt 3] /\
    columns out !! "勤務時間" =
      Some [VFloat (23 # 4); VFloat (31 # 4); VFloat 8; VFloat (17 # 2);
            VFloat (933 # 100); VNaN; VNaN; VFloat 1; VFloat (7 # 2)] /\
    columns out !! "給与" =
      Some [VFloat 7475; VFloat 10850; VFloat 11200; VFloat 11050; VNaN;
            VNaN; VNaN; VFloat 1200; VFloat 4200].
Proof.
  eexists. split; [vm_compute; reflexivity|].
  repeat split; vm_compute; reflexivity.
Qed.


(** ** Numeric clock cells *)

Lemma astype_str_length col : length (astype_str col) = length col.
Proof. unfold astype_str. destruct (forallb _ _); apply length_map. Qed.

Lemma date_clock_text_cell dts c k d x :
  astype_str dts !! k = Some d -> astype_str c !! k = Some x ->
  date_clock_text dts c !! k = Some (d +:+ String " " x).
Proof.
  intros Hd Hx. unfold date_clock_text, str_add, str_add_scalar.
  rewrite lookup_zip_with, list_lookup_fmap, Hd. cbn. rewrite Hx. cbn.
  f_equal. apply string_app_assoc.
Qed.

(** A clock cell whose text is no clock gives NaT, whatever the date. *)
Lemma parsed_clock_no_clock dts c k v :
  c !! k = Some v -> is_datetime_cell v = false ->
  is_Some (dts !! k) ->
  parse_clock (str_cell v) = None ->
  parsed_clock dts c !! k = Some VNaT.
Proof.
  intros Hc Hv Hd Hp.
  assert (is_Some (astype_str dts !! k)) as [d Hk].
  { apply lookup_lt_is_Some. rewrite astype_str_length.
    by apply lookup_lt_is_Some. }
  unfold parsed_clock, to_datetime_coerce. rewrite list_lookup_fmap.
  rewrite (date_clock_text_cell _ _ _ _ _ Hk (astype_str_object _ _ _ Hc Hv)).
  cbn. unfold to_datetime_coerce_cell.
  destruct (parse_datetime _) as [a|] eqn:E; [|reflexivity].
  destruct (parse_datetime_date_clock _ _ _ E) as (? & t & Ht & _).
  congruence.
Qed.

(** C6, the numeric representation.  A clock cell holding the fraction of
    a day 0.375 (09:00 in a spreadsheet) is written as the text [0.375]
    after the date, which is no timestamp: the cell is read as NaT on every
    date, and the worked hours of the row are null. *)
Theorem fractional_day_clock_is_not_parsed
    (dts cin cout : list value) (k : nat) :
  cin !! k = Some (VFloat (3 # 8)) ->
  is_Some (dts !! k) ->
  is_Some (cout !! k) ->
  parsed_clock dts cin !! k = Some VNaT /\
  hours_of dts cin cout !! k = Some VNaN.
Proof.
  intros Hc Hd [o Ho].
  assert (parsed_clock dts cin !! k = Some VNaT) as Hp
    by (by apply (parsed_clock_no_clock _ _ _ (VFloat (3 # 8)))).
  split; [exact Hp|].
  assert (is_Some (parsed_clock dts cout !! k)) as [po Hpo].
  { apply lookup_lt_is_Some.
    unfold parsed_clock, to_datetime_coerce, date_clock_text, str_add,
      str_add_scalar.
    rewrite length_map, length_zip_with, length_map, !astype_str_length.
    apply lookup_lt_is_Some in Hd. apply lookup_lt_Some in Ho. lia. }
  apply (hours_of_null _ _ _ _ _ _ Hp Hpo). by left.
Qed.

Lemma fractional_day_clock_is_not_parsed_witness :
  parsed_clock sample_dates sample_in !! 3%nat = Some VNaT /\
  hours_of sample_dates sample_in sample_out !! 3%nat = Some VNaN.
Proof.
  apply (fractional_day_clock_is_not_parsed sample_dates sample_in sample_out 3).
  - reflexivity.
  - eexists. reflexivity.
  - eexists. reflexivity.
Defined.

(** C6, the other two representations, on one date: a [datetime.time] cell
    and the text [09:00] are both read as 09:00 on the date of the row. *)
Example time_and_text_clock_are_parsed :
  parsed_clock [day_2026 1 5; day_2026 1 5] [VTime 9 0 0 0; VStr "09:00"] =
    [VTimestamp (days_from_civil 2026 1 5 * NS_PER_DAY + 9 * 3600 * NS_PER_SECOND);
     VTimestamp (days_from_civil 2026 1 5 * NS_PER_DAY + 9 * 3600 * NS_PER_SECOND)].
Proof. vm_compute. reflexivity. Qed.


(** * Further properties *)

(** ** Every outcome of [calculate_work_hours] *)

Lemma corrected_cell_exact o i :
  (if lt_cell o i then add_timedelta (Timedelta_days 1) o else Ok o) =
    if correction_fits o i then Ok (corrected_cell o i) else Raise OverflowError.
Proof.
  unfold correction_fits, corrected_cell.
  destruct o; destruct (lt_cell _ _); reflexivity.
Qed.

Lemma loc_iadd_cells_exact outs ins :
  mapM (fun '(b, v) =>
          if b : bool then add_timedelta (Timedelta_days 1) v else Ok v)
       (zip (series_lt outs ins) outs)
  = if corrections_fit outs ins
    then Ok (zip_with corrected_cell outs ins)
    else Raise OverflowError.
Proof.
  revert ins. induction outs as [|o outs IH]; intros [|i ins]; try reflexivity.
  cbn [series_lt zip_with zip mapM].
  change (zip_with lt_cell outs ins) with (series_lt outs ins).
  change (zip_with pair (series_lt outs ins) outs)
    with (zip (series_lt outs ins) outs).
  rewrite IH, corrected_cell_exact. unfold corrections_fit.
  cbn [zip_with forallb].
  destruct (correction_fits o i); [|reflexivity].
  destruct (forallb _ _); reflexivity.
Qed.

Lemma drop_intermediate_columns df dts cin cout :
  drop_columns ["出勤_dt"; "退勤_dt"] (with_hours df dts cin cout) =
    Ok (work_hours_frame df dts cin cout).
Proof.
  unfold with_hours, work_hours_frame, setcol. cbn.
  repeat (col_lookup; cbn [drop_columns columns nrows]).
  f_equal. f_equal.
  apply map_eq. intros c.
  destruct (decide (c = "勤務時間")) as [->|n1]; [by col_lookup|].
  destruct (decide (c = "退勤_dt")) as [->|n2]; [by col_lookup|].
  destruct (decide (c = "出勤_dt")) as [->|n3]; [by col_lookup|].
  destruct (decide (c = "日付")) as [->|n4]; [by col_lookup|].
  by col_lookup.
Qed.

Lemma calculate_work_hours_outcome df :
  calculate_work_hours df = work_hours_outcome df.
Proof.
  unfold calculate_work_hours, work_hours_outcome, convert_timestamps.
  unfold getcol.
  destruct (columns df !! "日付") as [dcol|] eqn:Hd; [|reflexivity].
  cbn [mbind result_bind].
  destruct (to_datetime dcol) as [dts|e]; [|reflexivity].
  cbn [mbind result_bind]. cbv zeta. run_getcol.
  destruct (columns df !! "出勤") as [cin|] eqn:Hi; [|reflexivity].
  cbn [mbind result_bind]. run_getcol.
  destruct (columns df !! "退勤") as [cout|] eqn:Ho; [|reflexivity].
  cbn [mbind result_bind].
  unfold overnight_correction, loc_iadd. run_getcol.
  fold (parsed_clock dts cin). fold (parsed_clock dts cout).
  rewrite loc_iadd_cells_exact.
  destruct (corrections_fit _ _); [|reflexivity].
  cbn [mbind result_bind].
  unfold work_hours_column. run_getcol.
  apply drop_intermediate_columns.
Qed.


Lemma calculate_work_hours_inv df out :
  calculate_work_hours df = Ok out ->
  exists dcol cin cout dts,
    columns df !! "日付" = Some dcol /\
    columns df !! "出勤" = Some cin /\
    columns df !! "退勤" = Some cout /\
    to_datetime dcol = Ok dts /\
    corrections_fit (parsed_clock dts cout) (parsed_clock dts cin) = true /\
    out = work_hours_frame df dts cin cout.
Proof.
  rewrite calculate_work_hours_outcome. unfold work_hours_outcome.
  destruct (columns df !! "日付") as [dcol|]; [|discriminate].
  destruct (to_datetime dcol) as [dts|] eqn:Ec; [|discriminate].
  destruct (columns df !! "出勤") as [cin|]; [|discriminate].
  destruct (columns df !! "退勤") as [cout|]; [|discriminate].
  destruct (corrections_fit _ _) eqn:E; [|discriminate].
  intros [= <-]. exists dcol, cin, cout, dts.
  do 3 (split; [reflexivity|]). split; [exact Ec|].
  split; [exact E|reflexivity].
Qed.

Lemma calculate_work_hours_intro df dcol cin cout dts :
  columns df !! "日付" = Some dcol ->
  columns df !! "出勤" = Some cin ->
  columns df !! "退勤" = Some cout ->
  to_datetime dcol = Ok dts ->
  corrections_fit (parsed_clock dts cout) (parsed_clock dts cin) = true ->
  calculate_work_hours df = Ok (work_hours_frame df dts cin cout).
Proof.
  intros Hd Hi Ho Hc Hf.
  rewrite calculate_work_hours_outcome. unfold work_hours_outcome.
  by rewrite Hd, Hc, Hi, Ho, Hf.
Qed.


Lemma to_datetime_cell_idempotent v y :
  to_datetime_cell v = Ok y -> to_datetime_cell y = Ok y.
Proof.
  unfold to_datetime_cell. intros H.
  repeat case_match; simplify_eq; reflexivity.
Qed.

Lemma to_datetime_idempotent col dts :
  to_datetime col = Ok dts -> to_datetime dts = Ok dts.
Proof.
  unfold to_datetime. revert dts.
  induction col as [|v col IH]; intros dts; cbn.
  - by intros [= <-].
  - destruct (to_datetime_cell v) as [y|e] eqn:Ev; [|discriminate]. cbn.
    destruct (mapM to_datetime_cell col) as [k|e]; [|discriminate]. cbn.
    intros [= <-]. cbn.
    by rewrite (to_datetime_cell_idempotent _ _ Ev), (IH k eq_refl).
Qed.

Lemma work_hours_frame_columns df dts cin cout c :
  columns (work_hours_frame df dts cin cout) !! c =
    if decide (c = "勤務時間") then Some (hours_of dts cin cout)
    else if decide (c = "日付") then Some dts
    else if decide (c = "退勤_dt") then None
    else if decide (c = "出勤_dt") then None
    else columns df !! c.
Proof.
  unfold work_hours_frame. cbn [columns].
  repeat case_decide; subst; by col_lookup.
Qed.

(** X2.  Running [calculate_work_hours] on its own result changes nothing. *)
Theorem calculate_work_hours_idempotent (df out : DataFrame) :
  calculate_work_hours df = Ok out -> calculate_work_hours out = Ok out.
Proof.
  intros H. apply calculate_work_hours_inv in H
    as (dcol & cin & cout & dts & Hd & Hi & Ho & Hc & Hf & ->).
  rewrite (calculate_work_hours_intro _ dts cin cout dts);
    rewrite ?work_hours_frame_columns; cbn;
    [|done|done|done|by apply (to_datetime_idempotent dcol)|done].
  unfold work_hours_frame. cbn [columns nrows]. f_equal. f_equal.
  apply map_eq. intros c.
  destruct (decide (c = "勤務時間")) as [->|n1]; [by col_lookup|].
  destruct (decide (c = "日付")) as [->|n4]; [by col_lookup|].
  destruct (decide (c = "退勤_dt")) as [->|n2]; [by col_lookup|].
  destruct (decide (c = "出勤_dt")) as [->|n3]; [by col_lookup|].
  by col_lookup.
Qed.

(** X3.  [calculate_work_hours] keeps the rows and every column it does not
    name: only the date column and the worked-hours column are set, and a
    column called [出勤_dt] or [退勤_dt] is absent from the result even when
    the input had one. *)
Theorem calculate_work_hours_frame (df out : DataFrame) :
  calculate_work_hours df = Ok out ->
  nrows out = nrows df /\
  columns out !! "出勤_dt" = None /\
  columns out !! "退勤_dt" = None /\
  forall c,
    c <> "日付" -> c <> "勤務時間" -> c <> "出勤_dt" -> c <> "退勤_dt" ->
    columns out !! c = columns df !! c.
Proof.
  intros H. apply calculate_work_hours_inv in H
    as (dcol & cin & cout & dts & _ & _ & _ & _ & _ & ->).
  split; [reflexivity|].
  split; [by rewrite work_hours_frame_columns|].
  split; [by rewrite work_hours_frame_columns|].
  intros c n1 n2 n3 n4. rewrite work_hours_frame_columns.
  by repeat case_decide.
Qed.


Lemma sample_frame_hours :
  calculate_work_hours sample_frame = Ok sample_hours_frame.
Proof. vm_compute. reflexivity. Defined.

Lemma calculate_work_hours_idempotent_witness :
  calculate_work_hours sample_hours_frame = Ok sample_hours_frame.
Proof.
  exact (calculate_work_hours_idempotent sample_frame sample_hours_frame
           sample_frame_hours).
Defined.

Lemma calculate_work_hours_frame_witness :
  nrows sample_hours_frame = nrows sample_frame /\
  columns sample_hours_frame !! "出勤_dt" = None /\
  columns sample_hours_frame !! "退勤_dt" = None /\
  forall c,
    c <> "日付" -> c <> "勤務時間" -> c <> "出勤_dt" -> c <> "退勤_dt" ->
    columns sample_hours_frame !! c = columns sample_frame !! c.
Proof.
  exact (calculate_work_hours_frame sample_frame sample_hours_frame
           sample_frame_hours).
Defined.


(** ** Every outcome of [process_sheet] *)

Lemma process_sheet_after_hours df month dts cin cout :
  calculate_work_hours df = Ok (work_hours_frame df dts cin cout) ->
  process_sheet df month =
    match columns df !! "名前" with
    | Some names => Ok (month_frame df dts names cin cout month)
    | None => Raise (KeyError "名前")
    end.
Proof.
  intros H. unfold process_sheet. rewrite H, result_bind_Ok.
  unfold apply_wage_master, getcol at 1, work_hours_frame.
  cbn [columns]. col_lookup.
  destruct (columns df !! "名前") as [names|]; [|reflexivity].
  cbn [mbind result_bind]. unfold calculate_salary.
  run_getcol. reflexivity.
Qed.

Lemma process_sheet_returns_iff df month out :
  process_sheet df month = Ok out <->
  exists dcol names cin cout dts,
    columns df !! "日付" = Some dcol /\
    columns df !! "名前" = Some names /\
    columns df !! "出勤" = Some cin /\
    columns df !! "退勤" = Some cout /\
    to_datetime dcol = Ok dts /\
    corrections_fit (parsed_clock dts cout) (parsed_clock dts cin) = true /\
    out = month_frame df dts names cin cout month.
Proof.
  split.
  - intros H.
    destruct (calculate_work_hours df) as [o|e] eqn:E.
    + apply calculate_work_hours_inv in E
        as (dcol & cin & cout & dts & Hd & Hi & Ho & Hc & Hf & ->).
      assert (calculate_work_hours df = Ok (work_hours_frame df dts cin cout))
        as E by (by apply (calculate_work_hours_intro df dcol)).
      rewrite (process_sheet_after_hours _ _ _ _ _ E) in H.
      destruct (columns df !! "名前") as [names|] eqn:Hn; [|discriminate].
      injection H as <-. exists dcol, names, cin, cout, dts.
      by repeat split.
    + unfold process_sheet in H. rewrite E in H. discriminate.
  - intros (dcol & names & cin & cout & dts & Hd & Hn & Hi & Ho & Hc & Hf & ->).
    assert (calculate_work_hours df = Ok (work_hours_frame df dts cin cout))
      as E by (by apply (calculate_work_hours_intro df dcol)).
    by rewrite (process_sheet_after_hours _ _ _ _ _ E), Hn.
Qed.

(** X8.  A sheet that lacks one of the four columns 日付, 名前, 出勤, 退勤 is
    not processed: [process_sheet] raises. *)
Theorem missing_column_raises (df : DataFrame) (month : Z) (c : string) :
  c ∈ required_columns ->
  columns df !! c = None ->
  exists e, process_sheet df month = Raise e.
Proof.
  intros Hc Hn. destruct (process_sheet df month) as [out|e] eqn:E; [|by eexists].
  apply process_sheet_returns_iff in E
    as (? & ? & ? & ? & ? & Hd & Hna & Hi & Ho & _).
  unfold required_columns in Hc.
  repeat (apply elem_of_cons in Hc as [->|Hc]; [congruence|]).
  by apply elem_of_nil in Hc.
Qed.


Lemma missing_column_raises_witness :
  exists e, process_sheet sample_priced 1 = Raise e.
Proof.
  apply (missing_column_raises sample_priced 1 "日付").
  - left.
  - vm_compute. reflexivity.
Defined.



(** ** Runs that fail *)

(** X11.  The first month that cannot be processed ends the run with its
    exception, whatever the exception is: the months before it were
    processed for nothing, the months after it are not read, and the files
    and the output of the program are as before the run. *)
Theorem first_failure_aborts_run
    (year : Z) (pre : list Z) (month : Z) (post : list Z) (base_dir : string)
    (w : World) (e : error) :
  Forall (fun m => exists df,
            process_month w (input_path_of base_dir year) m = Ok df) pre ->
  process_month w (input_path_of base_dir year) month = Raise e ->
  load_and_process_months w (input_path_of base_dir year)
    (pre ++ month :: post) = Raise e /\
  main_body year (pre ++ month :: post) base_dir w = (w, Raise e).
Proof.
  intros Hpre He.
  assert (load_and_process_months w (input_path_of base_dir year)
            (pre ++ month :: post) = Raise e) as H.
  { unfold load_and_process_months.
    by rewrite (load_loop_raises_at _ _ _ _ _ _ [] Hpre He). }
  split; [exact H|]. unfold main_body. cbv zeta. by rewrite H.
Qed.

Lemma first_failure_aborts_run_witness :
  load_and_process_months world_with_bad_february
    (input_path_of sample_dir 2026) [1; 2; 3] = Raise (KeyError "退勤") /\
  main sample_dir world_with_bad_february =
    (world_with_bad_february, Raise (KeyError "退勤")).
Proof.
  apply (first_failure_aborts_run 2026 [1] 2 [3] sample_dir
           world_with_bad_february (KeyError "退勤")).
  - constructor; [|constructor]. eexists. vm_compute. reflexivity.
  - vm_compute. reflexivity.
Defined.

(** X12.  Without the input workbook nothing is processed: with at least one
    month requested, [main] raises the error of the missing file and
    changes nothing. *)
Theorem missing_workbook_aborts_run
    (year : Z) (month : Z) (rest : list Z) (base_dir : string) (w : World) :
  files w !! input_path_of base_dir year = None ->
  main_body year (month :: rest) base_dir w =
    (w, Raise (FileNotFound (input_path_of base_dir year))).
Proof.
  intros Hf.
  assert (process_month w (input_path_of base_dir year) month =
            Raise (FileNotFound (input_path_of base_dir year))) as He
    by (unfold process_month, read_excel; cbv zeta; by rewrite Hf).
  unfold main_body, load_and_process_months. cbv zeta.
  pose proof (load_loop_raises_at _ _ [] month rest _ [] (Forall_nil_2 _) He)
    as Hl.
  cbn [app] in Hl. by rewrite Hl.
Qed.

Lemma missing_workbook_aborts_run_witness :
  main sample_dir empty_world =
    (empty_world, Raise (FileNotFound (input_path_of sample_dir 2026))).
Proof.
  apply (missing_workbook_aborts_run 2026 1 [2; 3] sample_dir empty_world).
  reflexivity.
Defined.

(** X13.  With no month requested there is nothing to concatenate: the run
    raises before it looks at any file, whether the workbook exists or
    not. *)
Theorem no_month_requested_raises
    (year : Z) (base_dir : string) (w : World) :
  load_and_process_months w (input_path_of base_dir year) [] =
    Raise NoObjectsToConcatenate /\
  main_body year [] base_dir w = (w, Raise NoObjectsToConcatenate).
Proof. split; reflexivity. Qed.


(** ** The files of a run *)

Lemma string_app_inv_head (p a b : string) : p +:+ a = p +:+ b -> a = b.
Proof.
  induction p as [|c p IH]; [by rewrite !string_app_nil|].
  rewrite !string_app_cons. intros [= H]. by apply IH.
Qed.

Lemma input_output_paths_differ base_dir year months :
  input_path_of base_dir year <> output_path_of base_dir year months.
Proof.
  unfold input_path_of, output_path_of. intros H.
  apply string_app_inv_head in H.
  rewrite !string_app_cons in H.
  repeat (injection H as H). discriminate.
Qed.

Lemma select_columns_headers df cs tbl :
  select_columns df cs = Ok tbl -> map fst tbl = cs.
Proof.
  unfold select_columns. revert tbl.
  induction cs as [|c cs IH]; intros tbl; cbn.
  - by intros [= <-].
  - destruct (getcol df c) as [col|]; [|discriminate]. cbn.
    destruct (mapM _ cs) as [k|]; [|discriminate]. cbn.
    intros [= <-]. cbn. by rewrite (IH k).
Qed.

Lemma select_columns_present df cs :
  Forall (fun c => is_Some (columns df !! c)) cs ->
  exists tbl, select_columns df cs = Ok tbl.
Proof.
  unfold select_columns. induction 1 as [|c cs [col Hc] _ [tbl IH]].
  - by eexists.
  - cbn. rewrite (getcol_Some _ _ _ Hc). cbn. rewrite IH. cbn. by eexists.
Qed.

Lemma month_frame_has_columns df dts names cin cout month :
  columns df !! "名前" = Some names ->
  columns df !! "出勤" = Some cin ->
  columns df !! "退勤" = Some cout ->
  Forall (fun c => is_Some (columns (month_frame df dts names cin cout month) !! c))
    output_columns.
Proof.
  intros Hn Hi Ho.
  unfold month_frame, setcol_scalar, work_hours_frame, setcol, output_columns.
  cbn [columns nrows].
  repeat (constructor; [col_lookup; by eexists|]). constructor.
Qed.

Lemma process_month_has_columns w path month df :
  process_month w path month = Ok df ->
  Forall (fun c => is_Some (columns df !! c)) output_columns.
Proof.
  unfold process_month. cbv zeta.
  destruct (read_excel _ _ _) as [df0|]; [|discriminate].
  rewrite result_bind_Ok. intros H.
  apply process_sheet_returns_iff in H
    as (dcol & names & cin & cout & dts & _ & Hn & Hi & Ho & _ & _ & ->).
  by apply month_frame_has_columns.
Qed.

Lemma load_loop_inv w path months acc dfs :
  load_loop w path months acc = Ok dfs ->
  exists frames,
    dfs = (acc ++ frames)%list /\
    Forall2 (fun m df => process_month w path m = Ok df) months frames.
Proof.
  revert acc. induction months as [|m months IH]; intros acc; cbn [load_loop].
  - intros [= <-]. exists []. by rewrite app_nil_r.
  - destruct (process_month w path m) as [df|] eqn:E; [|discriminate].
    rewrite result_bind_Ok. intros H.
    destruct (IH _ H) as (frames & -> & HF).
    exists (df :: frames). rewrite <- app_assoc. split; [reflexivity|].
    by constructor.
Qed.

Lemma load_and_process_months_has_columns w path months df :
  load_and_process_months w path months = Ok df ->
  Forall (fun c => is_Some (columns df !! c)) output_columns.
Proof.
  unfold load_and_process_months.
  destruct (load_loop w path months []) as [dfs|] eqn:E; [|discriminate].
  rewrite result_bind_Ok.
  destruct (load_loop_inv _ _ _ _ _ E) as (frames & -> & HF).
  cbn [app]. destruct HF as [|m d ms ds Hd _]; [discriminate|].
  cbn [concat]. intros [= <-].
  eapply Forall_impl; [exact (process_month_has_columns _ _ _ _ Hd)|].
  intros c Hc. apply has_column_foldl. by apply Exists_cons_hd.
Qed.


(** X15.  A run that returns has written one workbook, at the output path, with
    one sheet of the eight output columns, and has printed one line; every
    other file, the input workbook among them, is as before. *)
Theorem successful_run_writes_one_file
    (year : Z) (months : list Z) (base_dir : string) (w w' : World) :
  main_body year months base_dir w = (w', Ok tt) ->
  exists tbl,
    files w' !! output_path_of base_dir year months =
      Some {["Sheet1" := tbl]} /\
    map fst tbl = output_columns /\
    (forall p, p <> output_path_of base_dir year months ->
               files w' !! p = files w !! p) /\
    files w' !! input_path_of base_dir year =
      files w !! input_path_of base_dir year /\
    stdout w' = (stdout w ++ ["勤務時間の計算が完了しました"])%list.
Proof.
  unfold main_body. cbv zeta.
  destruct (load_and_process_months _ _ _) as [df|e]; [|discriminate].
  destruct (select_columns df output_columns) as [tbl|] eqn:Es; [|discriminate].
  intros [= <-]. exists tbl. cbn [files stdout].
  split; [apply lookup_insert_eq|].
  split; [by apply (select_columns_headers df)|].
  split; [intros p Hp; by rewrite lookup_insert_ne|].
  split; [|reflexivity].
  rewrite lookup_insert_ne; [reflexivity|].
  intros H. by apply (input_output_paths_differ base_dir year months).
Qed.

Lemma sample_run :
  main_body 2026 [2; 1; 3] sample_dir sample_world = (sample_world_after, Ok tt).
Proof. vm_compute. reflexivity. Defined.

Lemma successful_run_writes_one_file_witness :
  exists tbl,
    files sample_world_after !! output_path_of sample_dir 2026 [2; 1; 3] =
      Some {["Sheet1" := tbl]} /\
    map fst tbl = output_columns /\
    (forall p, p <> output_path_of sample_dir 2026 [2; 1; 3] ->
               files sample_world_after !! p = files sample_world !! p) /\
    files sample_world_after !! input_path_of sample_dir 2026 =
      files sample_world !! input_path_of sample_dir 2026 /\
    stdout sample_world_after =
      (stdout sample_world ++ ["勤務時間の計算が完了しました"])%list.
Proof.
  exact (successful_run_writes_one_file 2026 [2; 1; 3] sample_dir sample_world
           sample_world_after sample_run).
Defined.


(** ** The shape of a processed sheet *)

Lemma parsed_clock_length dts c :
  length (parsed_clock dts c) = (length dts `min` length c)%nat.
Proof.
  unfold parsed_clock, to_datetime_coerce, date_clock_text, str_add,
    str_add_scalar.
  by rewrite length_map, length_zip_with, length_map, !astype_str_length.
Qed.

Lemma hours_of_length dts cin cout :
  length (hours_of dts cin cout) =
    ((length dts `min` length cin) `min` length cout)%nat.
Proof.
  unfold hours_of, series_sub, corrected_out.
  rewrite length_map, !length_zip_with, !parsed_clock_length. lia.
Qed.

Lemma wages_of_length names : length (wages_of names) = length names.
Proof. apply length_map. Qed.

Lemma pay_of_length dts names cin cout :
  length (pay_of dts names cin cout) =
    (length (hours_of dts cin cout) `min` length names)%nat.
Proof.
  unfold pay_of, series_mul. by rewrite length_zip_with, wages_of_length.
Qed.

Lemma month_frame_columns df dts names cin cout month c :
  columns (month_frame df dts names cin cout month) !! c =
    if decide (c = "対象月") then Some (replicate (nrows df) (VInt month))
    else if decide (c = "給与") then Some (pay_of dts names cin cout)
    else if decide (c = "時給") then Some (wages_of names)
    else if decide (c = "勤務時間") then Some (hours_of dts cin cout)
    else if decide (c = "日付") then Some dts
    else if decide (c = "退勤_dt") then None
    else if decide (c = "出勤_dt") then None
    else columns df !! c.
Proof.
  unfold month_frame, setcol_scalar, work_hours_frame, setcol.
  cbn [columns nrows].
  repeat case_decide; subst; by col_lookup.
Qed.

(** X9.  [process_sheet] keeps the number of rows, and a rectangular sheet
    stays rectangular: the columns that are added or replaced have one
    cell for every row. *)
Theorem process_sheet_keeps_shape (df out : DataFrame) (month : Z) :
  rectangular df ->
  process_sheet df month = Ok out ->
  nrows out = nrows df /\ rectangular out.
Proof.
  intros Hr H. apply process_sheet_returns_iff in H
    as (dcol & names & cin & cout & dts & Hd & Hn & Hi & Ho & Hc & _ & ->).
  split; [reflexivity|].
  pose proof (Hr _ _ Hd) as Ld. pose proof (Hr _ _ Hn) as Ln.
  pose proof (Hr _ _ Hi) as Li. pose proof (Hr _ _ Ho) as Lo.
  apply mapM_result_length in Hc.
  assert (length (hours_of dts cin cout) = nrows df) as Lh
    by (rewrite hours_of_length; lia).
  intros c col. rewrite month_frame_columns.
  change (nrows (month_frame df dts names cin cout month)) with (nrows df).
  repeat case_decide; try discriminate; intros Hcol.
  - injection Hcol as <-. apply length_replicate.
  - injection Hcol as <-. rewrite pay_of_length. lia.
  - injection Hcol as <-. by rewrite wages_of_length.
  - by injection Hcol as <-.
  - injection Hcol as <-. congruence.
  - exact (Hr _ _ Hcol).
Qed.

Lemma sample_frame_rectangular : rectangular sample_frame.
Proof. apply rectangular_table_frame. vm_compute. reflexivity. Defined.

Lemma sample_frame_processed :
  process_sheet sample_frame 1 =
    Ok (month_frame sample_frame sample_dates sample_names sample_in
          sample_out 1).
Proof. vm_compute. reflexivity. Defined.

Lemma process_sheet_keeps_shape_witness :
  nrows (month_frame sample_frame sample_dates sample_names sample_in
           sample_out 1) = nrows sample_frame /\
  rectangular (month_frame sample_frame sample_dates sample_names sample_in
                 sample_out 1).
Proof.
  exact (process_sheet_keeps_shape sample_frame _ 1 sample_frame_rectangular
           sample_frame_processed).
Defined.


(** ** Bounds on hours and pay *)

Lemma rint_le q n : (q <= inject_Z n)%Q -> rint q <= n.
Proof.
  intros Hq. pose proof (Qfloor_le q) as Hlo.
  assert (Qfloor q <= n) as Hf.
  { rewrite <- (Qfloor_Z n). by apply Qfloor_resp_le. }
  unfold rint. set (f := Qfloor q) in *.
  destruct (Z.eq_dec f n) as [->|Hne].
  - destruct (Qcompare_spec (q - inject_Z n) (1 # 2)) as [He|Hl|Hg];
      [lra|lia|lra].
  - destruct (_ ?= _)%Q; [destruct (Z.even f)|..]; lia.
Qed.

(** The hundredths of an hour in a worked-hours cell. *)
Lemma hours_cell_hundredths ns :
  0 <= ns <= NS_PER_DAY ->
  exists r, 0 <= r <= 2400 /\
            hours_cell (Some ns) = VFloat (Qred (inject_Z r / 100)).
Proof.
  intros [Hlo Hhi]. exists (rint (elapsed_hours ns * 100)).
  split; [|apply hours_cell_Some].
  assert (elapsed_hours ns * 100 == inject_Z ns * (1 # 36000000000))%Q as Hx
    by (unfold elapsed_hours, NS_PER_SECOND, Qdiv; cbn; ring).
  assert (0 <= inject_Z ns)%Q
    by (change 0%Q with (inject_Z 0); by rewrite <- Zle_Qle).
  assert (inject_Z ns <= inject_Z NS_PER_DAY)%Q by (by rewrite <- Zle_Qle).
  split.
  - apply rint_nonneg. rewrite Hx. lra.
  - apply rint_le. rewrite Hx.
    assert (inject_Z NS_PER_DAY == 86400000000000)%Q as Hday by reflexivity.
    rewrite Hday in *. change (inject_Z 2400) with (2400%Q). lra.
Qed.

Lemma hours_of_cells dts cin cout k v :
  hours_of dts cin cout !! k = Some v ->
  v = VNaN \/
  exists r, 0 <= r <= 2400 /\ v = VFloat (Qred (inject_Z r / 100)).
Proof.
  intros Hk.
  destruct (hours_of_lookup_inv _ _ _ _ _ Hk) as (i & o & Hpi & Hpo & _).
  destruct (parsed_clock_cell _ _ _ _ Hpi) as [-> | [a ->]].
  { left. rewrite (hours_of_null _ _ _ _ _ _ Hpi Hpo) in Hk by auto. congruence. }
  destruct (parsed_clock_cell _ _ _ _ Hpo) as [-> | [b ->]].
  { left. rewrite (hours_of_null _ _ _ _ _ _ Hpi Hpo) in Hk by auto. congruence. }
  right. rewrite (hours_of_timestamps _ _ _ _ _ _ Hpi Hpo) in Hk.
  injection Hk as <-.
  destruct (parsed_same_day _ _ _ _ _ _ Hpi Hpo)
    as (d & ta & tb & -> & -> & Hta & Htb).
  apply hours_cell_hundredths.
  assert (ONE_DAY = NS_PER_DAY) as HD by (vm_compute; reflexivity).
  destruct (Z.ltb_spec (d * NS_PER_DAY + tb) (d * NS_PER_DAY + ta)); lia.
Qed.

Lemma hundredths_value r :
  (Qred (inject_Z r / 100) == inject_Z r * (1 # 100))%Q.
Proof. rewrite Qred_correct. reflexivity. Qed.




(** ** Which rows are paid *)

Lemma wage_cell_known names k v :
  names !! k = Some v ->
  exists w,
    wages_of names !! k = Some w /\
    (is_null w = false <->
     exists s, v = VStr s /\ s ∈ ["田中"; "鈴木"; "佐藤"]) /\
    (w = VNaN \/ exists y, w = VInt y).
Proof.
  intros Hv. rewrite wages_of_lookup, Hv. cbn. eexists.
  split; [reflexivity|].
  destruct v as [| |s| | | |];
    try (split; [split; [discriminate|by intros (? & [=] & _)]|by left]).
  rewrite wage_map_lookup.
  repeat case_decide; subst; cbn.
  - split; [|right; by eexists]. split; [|done]. intros _. eexists.
    split; [reflexivity|]. apply list_elem_of_In. cbn. auto.
  - split; [|right; by eexists]. split; [|done]. intros _. eexists.
    split; [reflexivity|]. apply list_elem_of_In. cbn. auto.
  - split; [|right; by eexists]. split; [|done]. intros _. eexists.
    split; [reflexivity|]. apply list_elem_of_In. cbn. auto.
  - split; [|by left]. split; [discriminate|].
    intros (s' & [= <-] & Hs). apply list_elem_of_In in Hs. cbn in Hs.
    destruct Hs as [?|[?|[?|[]]]]; congruence.
Qed.




(** ** Splitting the list of months *)

Lemma frame_eq (a b : DataFrame) :
  nrows a = nrows b -> columns a = columns b -> a = b.
Proof. destruct a, b. cbn. by intros -> ->. Qed.

Lemma concat2_assoc a b c :
  concat2 (concat2 a b) c = concat2 a (concat2 b c).
Proof.
  apply frame_eq; [cbn; lia|].
  apply map_eq. intros k. unfold concat2. cbn [columns nrows].
  rewrite !lookup_merge.
  destruct (columns a !! k) as [x|], (columns b !! k) as [y|],
    (columns c !! k) as [z|]; cbn; try reflexivity;
    rewrite ?replicate_add, <- ?app_assoc; reflexivity.
Qed.

Lemma foldl_concat2_app d ds1 d2 ds2 :
  foldl concat2 d (ds1 ++ d2 :: ds2) =
    concat2 (foldl concat2 d ds1) (foldl concat2 d2 ds2).
Proof.
  rewrite foldl_app. cbn [foldl]. generalize (foldl concat2 d ds1) as a.
  revert d2. induction ds2 as [|x ds2 IH]; intros d2 a; [reflexivity|].
  cbn [foldl]. rewrite IH, IH. by rewrite <- !concat2_assoc.
Qed.

Lemma load_loop_app w path ms1 ms2 acc dfs :
  load_loop w path ms1 acc = Ok dfs ->
  load_loop w path (ms1 ++ ms2) acc = load_loop w path ms2 dfs.
Proof.
  revert acc. induction ms1 as [|m ms1 IH]; intros acc; cbn [app load_loop].
  - by intros [= <-].
  - destruct (process_month w path m) as [df|]; [|discriminate].
    rewrite !result_bind_Ok. apply IH.
Qed.

Lemma load_loop_acc w path ms acc :
  load_loop w path ms acc =
    (frames ← load_loop w path ms []; Ok (acc ++ frames)%list).
Proof.
  revert acc. induction ms as [|m ms IH]; intros acc; cbn [load_loop].
  - cbn. by rewrite app_nil_r.
  - destruct (process_month w path m) as [df|]; [|reflexivity].
    rewrite !result_bind_Ok. rewrite (IH (acc ++ [df])%list), (IH ([] ++ [df])%list).
    destruct (load_loop w path ms []) as [frames|]; [|reflexivity].
    cbn. by rewrite <- app_assoc.
Qed.

(** X16.  Months can be processed in two runs and put together afterwards: the
    frame for the months of two lists, one after the other, is the
    concatenation of the frames for the two lists. *)
Theorem months_can_be_split
    (w : World) (path : string) (ms1 ms2 : list Z) (d1 d2 : DataFrame) :
  load_and_process_months w path ms1 = Ok d1 ->
  load_and_process_months w path ms2 = Ok d2 ->
  load_and_process_months w path (ms1 ++ ms2) = Ok (concat2 d1 d2).
Proof.
  unfold load_and_process_months. intros H1 H2.
  destruct (load_loop w path ms1 []) as [f1|] eqn:E1; [|discriminate].
  destruct (load_loop w path ms2 []) as [f2|] eqn:E2; [|discriminate].
  rewrite result_bind_Ok in H1, H2.
  rewrite (load_loop_app _ _ _ _ _ _ E1), load_loop_acc, E2, result_bind_Ok.
  rewrite result_bind_Ok.
  destruct f1 as [|a f1]; [discriminate|]. destruct f2 as [|b f2]; [discriminate|].
  cbn [concat app] in *. injection H1 as <-. injection H2 as <-.
  by rewrite foldl_concat2_app.
Qed.

Lemma months_can_be_split_witness :
  load_and_process_months sample_world (input_path_of sample_dir 2026)
    [2; 1; 3] =
  Ok (concat2 (month_result february)
        (concat2 (month_result january) (month_result march))).
Proof.
  apply (months_can_be_split sample_world (input_path_of sample_dir 2026)
           [2] [1; 3]).
  - vm_compute. reflexivity.
  - vm_compute. reflexivity.
Defined.


(** ** The calendar *)

Lemma check_span_spec p depth lo :
  check_span p depth lo = true ->
  forall z, lo <= z < lo + 2 ^ Z.of_nat depth -> p z = true.
Proof.
  revert lo. induction depth as [|d IH]; intros lo H z Hz.
  - cbn in *. by replace z with lo by lia.
  - cbn [check_span] in H. apply andb_true_iff in H as [H1 H2].
    rewrite Nat2Z.inj_succ, Z.pow_succ_r in Hz by lia.
    destruct (Z.lt_ge_cases z (lo + 2 ^ Z.of_nat d)).
    + apply (IH lo H1). lia.
    + apply (IH _ H2). lia.
Qed.

Lemma first_era_round_trip :
  check_span civil_round_trip 18 (-719468) = true.
Proof. vm_compute. reflexivity. Qed.

Lemma is_leap_shift y k : is_leap (y + 400 * k) = is_leap y.
Proof.
  unfold is_leap.
  replace (y + 400 * k) with (y + (100 * k) * 4) at 1 by lia.
  replace (y + 400 * k) with (y + (4 * k) * 100) at 1 by lia.
  replace (y + 400 * k) with (y + k * 400) by lia.
  by rewrite !Z.mod_add by lia.
Qed.

Lemma valid_date_shift y m d k :
  valid_date (y + 400 * k) m d = valid_date y m d.
Proof. unfold valid_date, days_in_month. by rewrite is_leap_shift. Qed.

Lemma days_from_civil_shift y m d k :
  days_from_civil (y + 400 * k) m d = days_from_civil y m d + 146097 * k.
Proof.
  unfold days_from_civil. cbv zeta.
  set (y0 := if m <=? 2 then y - 1 else y).
  replace (if m <=? 2 then y + 400 * k - 1 else y + 400 * k)
    with (y0 + k * 400) by (unfold y0; destruct (m <=? 2); lia).
  rewrite Z.div_add by lia.
  replace (y0 + k * 400 - (y0 / 400 + k) * 400) with (y0 - y0 / 400 * 400)
    by lia.
  lia.
Qed.

Lemma civil_from_days_shift z k :
  civil_from_days (z + 146097 * k) =
    let '(y, m, d) := civil_from_days z in (y + 400 * k, m, d).
Proof.
  unfold civil_from_days. cbv zeta.
  replace (z + 146097 * k + 719468) with (z + 719468 + k * 146097) by lia.
  rewrite Z.div_add by lia.
  replace (z + 719468 + k * 146097 - ((z + 719468) / 146097 + k) * 146097)
    with (z + 719468 - (z + 719468) / 146097 * 146097) by lia.
  set (doe := z + 719468 - (z + 719468) / 146097 * 146097).
  set (yoe := (doe - doe / 1460 + doe / 36524 - doe / 146096) / 365).
  set (doy := doe - (365 * yoe + yoe / 4 - yoe / 100)).
  set (mp := (5 * doy + 2) / 153).
  destruct (_ <=? 2); f_equal; f_equal; lia.
Qed.

(** Every day number has a valid civil date from which the day number is
    found again. *)
Lemma civil_date_round_trip z y m d :
  civil_from_days z = (y, m, d) ->
  valid_date y m d = true /\ days_from_civil y m d = z /\
  400 * ((z + 719468) / 146097) <= y <= 400 * ((z + 719468) / 146097) + 400.
Proof.
  set (k := (z + 719468) / 146097).
  set (z0 := z - 146097 * k).
  assert (0 <= z0 + 719468 < 146097) as Hz0.
  { unfold z0, k. pose proof (Z.mod_pos_bound (z + 719468) 146097 eq_refl).
    rewrite Z.mod_eq in H by lia. lia. }
  pose proof (check_span_spec _ _ _ first_era_round_trip z0) as Hc.
  change (2 ^ Z.of_nat 18) with 262144 in Hc. specialize (Hc ltac:(lia)).
  unfold civil_round_trip in Hc.
  destruct (Z.leb_spec 146097 (z0 + 719468)) as [?|_]; [lia|].
  replace z with (z0 + 146097 * k) by (unfold z0; lia).
  rewrite civil_from_days_shift.
  destruct (civil_from_days z0) as [[y0 m0] d0].
  intros [= <- <- <-].
  rewrite !andb_true_iff in Hc. destruct Hc as [[[Hv Hd] Hlo] Hhi].
  apply Z.eqb_eq in Hd. apply Z.leb_le in Hlo, Hhi.
  rewrite valid_date_shift, days_from_civil_shift.
  split; [exact Hv|]. split; lia.
Qed.


(** ** Digits written and read back *)

Lemma digit_val_digit_char d : 0 <= d <= 9 -> digit_val (digit_char d) = Some d.
Proof.
  intros H.
  assert (d = 0 \/ d = 1 \/ d = 2 \/ d = 3 \/ d = 4 \/ d = 5 \/ d = 6 \/
          d = 7 \/ d = 8 \/ d = 9) as Hd by lia.
  repeat (destruct Hd as [->|Hd]; [reflexivity|]). by subst.
Qed.

Lemma read_digits_step k acc s :
  read_digits (k + 1) acc s =
    '(v, r) ← read_digits k acc s; read_digits 1 v r.
Proof.
  revert acc s. induction k as [|k IH]; intros acc s; [reflexivity|].
  cbn [Nat.add read_digits]. destruct s as [|c s]; [reflexivity|].
  destruct (digit_val c) as [d|]; [|reflexivity]. apply IH.
Qed.

Lemma read_digits_pad k n acc rest :
  0 <= n < 10 ^ Z.of_nat k ->
  read_digits k acc (pad k n +:+ rest) = Some (acc * 10 ^ Z.of_nat k + n, rest).
Proof.
  revert n acc rest. induction k as [|k IH]; intros n acc rest Hn.
  - cbn in *. rewrite string_app_nil. do 2 f_equal. lia.
  - rewrite Nat2Z.inj_succ, Z.pow_succ_r in * by lia.
    cbn [pad]. rewrite string_app_assoc, string_app_cons, string_app_nil.
    replace (S k) with (k + 1)%nat by lia. rewrite read_digits_step.
    rewrite IH by (split; [apply Z.div_pos; lia|apply Z.div_lt_upper_bound; lia]).
    cbn [mbind option_bind read_digits].
    rewrite digit_val_digit_char by (pose proof (Z.mod_pos_bound n 10); lia).
    do 2 f_equal. pose proof (Z.div_mod n 10). lia.
Qed.

Lemma read_1or2_pad n rest :
  0 <= n < 100 -> read_1or2 (pad 2 n +:+ rest) = Some (n, rest).
Proof.
  intros Hn. unfold read_1or2.
  rewrite (read_digits_pad 2 n 0 rest) by (cbn; lia).
  do 2 f_equal.
Qed.

Lemma expect_cons c s : expect c (String c s) = Some s.
Proof. cbn. by rewrite Ascii.eqb_refl. Qed.

(** A date written as [astype(str)] writes it is read back as the same
    day, for every day that a timestamp can hold. *)
Lemma parse_date_format_date z rest :
  -106752 <= z <= 106751 ->
  parse_date (format_date (z * NS_PER_DAY) +:+ rest) = Some (z, rest).
Proof.
  intros Hz. unfold format_date.
  rewrite Z.div_mul by (vm_compute; discriminate).
  destruct (civil_from_days z) as [[y m] d] eqn:E.
  destruct (civil_date_round_trip _ _ _ _ E) as (Hv & Hd & Hy).
  assert (4 <= (z + 719468) / 146097 <= 5) as He.
  { split; [apply Z.div_le_lower_bound|apply Z.lt_succ_r, Z.div_lt_upper_bound];
      lia. }
  unfold valid_date in Hv. rewrite !andb_true_iff in Hv.
  destruct Hv as [[[Hm1 Hm2] Hd1] Hd2].
  apply Z.leb_le in Hm1, Hm2, Hd1, Hd2.
  assert (days_in_month y m <= 31) as Hdim
    by (unfold days_in_month; repeat case_match; lia).
  unfold parse_date.
  rewrite !string_app_assoc, !string_app_cons, !string_app_nil.
  rewrite (read_digits_pad 4 y 0) by (cbn; lia).
  cbn [mbind option_bind]. rewrite expect_cons. cbn [mbind option_bind].
  rewrite (read_digits_pad 2 m 0) by (cbn; lia).
  cbn [mbind option_bind]. rewrite expect_cons. cbn [mbind option_bind].
  rewrite (read_digits_pad 2 d 0) by (cbn; lia).
  cbn [mbind option_bind].
  replace (0 * 10 ^ Z.of_nat 4 + y) with y by lia.
  replace (0 * 10 ^ Z.of_nat 2 + m) with m by lia.
  replace (0 * 10 ^ Z.of_nat 2 + d) with d by lia.
  unfold valid_date.
  rewrite (proj2 (Z.leb_le _ _) Hm1), (proj2 (Z.leb_le _ _) Hm2),
    (proj2 (Z.leb_le _ _) Hd1), (proj2 (Z.leb_le _ _) Hd2).
  cbn [andb]. by rewrite Hd.
Qed.


(** ** Clocks read on the date of their row *)

Lemma string_app_nil_r (s : string) : s +:+ "" = s.
Proof.
  induction s as [|c s IH]; [reflexivity|].
  by rewrite string_app_cons, IH.
Qed.

Lemma midnight_column dts :
  forallb is_midnight dts = true ->
  forallb is_datetime_cell dts = true /\ column_resolution dts = RDay.
Proof.
  induction dts as [|v dts IH]; [done|]. cbn [forallb].
  rewrite andb_true_iff. intros [Hv Hd]. destruct (IH Hd) as [H1 H2].
  cbn [forallb column_resolution foldr].
  change (foldr _ RDay dts) with (column_resolution dts). rewrite H1, H2.
  destruct v; try discriminate; [done|]. cbn in Hv. cbn [is_datetime_cell andb].
  split; [reflexivity|]. unfold resolution_of. by rewrite Hv.
Qed.

Lemma astype_str_dates dts k ns :
  forallb is_midnight dts = true ->
  dts !! k = Some (VTimestamp ns) ->
  astype_str dts !! k = Some (format_date ns).
Proof.
  intros Hm Hk. destruct (midnight_column _ Hm) as [H1 H2].
  unfold astype_str. rewrite H1, H2, list_lookup_fmap, Hk. reflexivity.
Qed.

Lemma midnight_day dts k ns :
  forallb is_midnight dts = true ->
  dts !! k = Some (VTimestamp ns) ->
  in_bounds ns = true ->
  exists z, ns = z * NS_PER_DAY /\ -106752 <= z <= 106751.
Proof.
  intros Hm Hk Hb. rewrite forallb_forall in Hm.
  specialize (Hm (VTimestamp ns)
                (proj1 (list_elem_of_In _ _) (list_elem_of_lookup_2 _ _ _ Hk))).
  cbn in Hm. apply Z.eqb_eq in Hm.
  exists (ns / NS_PER_DAY).
  assert (ns = ns / NS_PER_DAY * NS_PER_DAY) as Hns.
  { pose proof (Z.div_mod ns NS_PER_DAY ltac:(vm_compute; discriminate)). lia. }
  split; [exact Hns|].
  unfold in_bounds in Hb. apply andb_true_iff in Hb as [Hlo Hhi].
  apply Z.ltb_lt in Hlo, Hhi.
  assert (NS_PER_DAY = 86400000000000) as HD by reflexivity.
  rewrite HD in *. lia.
Qed.

(** The timestamp of a clock cell is the date of its row plus the clock
    that the text of the cell denotes. *)
Lemma parsed_clock_on_date dts c k ns v t :
  forallb is_midnight dts = true ->
  dts !! k = Some (VTimestamp ns) ->
  in_bounds ns = true ->
  c !! k = Some v ->
  is_datetime_cell v = false ->
  parse_clock (str_cell v) = Some t ->
  in_bounds (ns + t) = true ->
  parsed_clock dts c !! k = Some (VTimestamp (ns + t)).
Proof.
  intros Hm Hk Hb Hc Hv Hp Hbt.
  destruct (midnight_day _ _ _ Hm Hk Hb) as (z & -> & Hz).
  unfold parsed_clock, to_datetime_coerce. rewrite list_lookup_fmap.
  rewrite (date_clock_text_cell _ _ _ _ _ (astype_str_dates _ _ _ Hm Hk)
             (astype_str_object _ _ _ Hc Hv)).
  cbn [fmap option_fmap option_map]. f_equal.
  unfold to_datetime_coerce_cell, parse_datetime.
  rewrite (parse_date_format_date z _ Hz).
  cbn [mbind option_bind]. rewrite Ascii.eqb_refl. cbn [orb].
  rewrite Hp. cbn [mbind option_bind]. by rewrite Hbt.
Qed.


Lemma parse_clock_hm h m :
  0 <= h < 24 -> 0 <= m < 60 ->
  parse_clock (pad 2 h +:+ ":" +:+ pad 2 m) =
    Some ((h * 3600 + m * 60) * NS_PER_SECOND).
Proof.
  intros Hh Hm.
  assert (pad 2 h +:+ ":" +:+ pad 2 m =
          pad 2 h +:+ String ":" (pad 2 m +:+ "")) as ->
    by (by rewrite string_app_cons, string_app_nil, string_app_nil_r).
  unfold parse_clock. rewrite read_1or2_pad by lia.
  cbn [mbind option_bind]. rewrite (proj2 (Z.leb_gt 24 h)) by lia.
  rewrite Ascii.eqb_refl. cbn [negb]. rewrite read_1or2_pad by lia.
  cbn [mbind option_bind]. by rewrite (proj2 (Z.leb_gt 60 m)) by lia.
Qed.

Lemma parse_clock_hms h m s :
  0 <= h < 24 -> 0 <= m < 60 -> 0 <= s < 60 ->
  parse_clock (str_time h m s 0) =
    Some ((h * 3600 + m * 60 + s) * NS_PER_SECOND).
Proof.
  intros Hh Hm Hs. unfold str_time. cbn [Z.eqb].
  assert (pad 2 h +:+ ":" +:+ pad 2 m +:+ ":" +:+ pad 2 s =
          pad 2 h +:+ String ":" (pad 2 m +:+ String ":" (pad 2 s +:+ "")))
    as ->
    by (by rewrite !string_app_cons, !string_app_nil, string_app_nil_r).
  unfold parse_clock. rewrite read_1or2_pad by lia.
  cbn [mbind option_bind]. rewrite (proj2 (Z.leb_gt 24 h)) by lia.
  rewrite Ascii.eqb_refl. cbn [negb]. rewrite read_1or2_pad by lia.
  cbn [mbind option_bind]. rewrite (proj2 (Z.leb_gt 60 m)) by lia.
  rewrite Ascii.eqb_refl. cbn [negb]. rewrite read_1or2_pad by lia.
  cbn [mbind option_bind]. by rewrite (proj2 (Z.leb_gt 60 s)) by lia.
Qed.

Lemma in_bounds_same_day ns t :
  in_bounds ns = true -> ns + NS_PER_DAY < 2 ^ 63 -> 0 <= t < NS_PER_DAY ->
  in_bounds (ns + t) = true.
Proof.
  unfold in_bounds. rewrite !andb_true_iff, !Z.ltb_lt. lia.
Qed.






(** ** Columns that only some sheets have *)

Lemma load_and_process_months_inv w path months out :
  load_and_process_months w path months = Ok out ->
  exists d ds,
    Forall2 (fun m df => process_month w path m = Ok df) months (d :: ds) /\
    out = foldl concat2 d ds.
Proof.
  unfold load_and_process_months.
  destruct (load_loop w path months []) as [dfs|] eqn:E; [|discriminate].
  rewrite result_bind_Ok.
  destruct (load_loop_inv _ _ _ _ _ E) as (frames & -> & HF).
  cbn [app]. destruct frames as [|d ds]; [discriminate|].
  cbn [concat]. intros [= <-]. by exists d, ds.
Qed.

(** X17.  A column of the concatenated frame holds, month after month, the
    column of the month's frame, or one NaN for each of its rows when the
    month's frame has no such column; a column that no month has is not in
    the result.  So a column found in some sheets only is kept, with
    missing values on the rows of the other sheets. *)
Theorem column_of_some_months_filled_with_nan
    (w : World) (path : string) (months : list Z) (out : DataFrame) :
  load_and_process_months w path months = Ok out ->
  exists frames,
    Forall2 (fun m df => process_month w path m = Ok df) months frames /\
    nrows out = sum_list (map nrows frames) /\
    forall c,
      columns out !! c =
        if decide (Exists (fun df => is_Some (columns df !! c)) frames)
        then Some (List.concat (map (column_or_nan c) frames))
        else None.
Proof.
  intros H. apply load_and_process_months_inv in H as (d & ds & HF & ->).
  exists (d :: ds). split; [exact HF|]. split; [apply nrows_foldl|].
  intros c. case_decide as Hc.
  - by apply concat_column.
  - apply eq_None_not_Some. intros Hs. by apply Hc, has_column_foldl.
Qed.

Lemma remarks_run_loaded :
  load_and_process_months world_with_remarks (input_path_of sample_dir 2026)
    [2; 3] = Ok remarks_run.
Proof. vm_compute. reflexivity. Defined.

Lemma column_of_some_months_filled_with_nan_witness :
  exists frames,
    Forall2 (fun m df =>
               process_month world_with_remarks
                 (input_path_of sample_dir 2026) m = Ok df) [2; 3] frames /\
    nrows remarks_run = sum_list (map nrows frames) /\
    forall c,
      columns remarks_run !! c =
        if decide (Exists (fun df => is_Some (columns df !! c)) frames)
        then Some (List.concat (map (column_or_nan c) frames))
        else None.
Proof.
  exact (column_of_some_months_filled_with_nan world_with_remarks
           (input_path_of sample_dir 2026) [2; 3] remarks_run
           remarks_run_loaded).
Defined.

(** The remarks column of the run: the remarks of February, and NaN for
    the row of March. *)
Example remarks_run_column :
  columns remarks_run !! "備考" = Some [VStr "遅刻"; VNaN; VNaN].
Proof. vm_compute. reflexivity. Qed.


(** ** Empty clock cells *)

Lemma parsed_clock_is_Some dts c k :
  is_Some (dts !! k) -> is_Some (c !! k) -> is_Some (parsed_clock dts c !! k).
Proof.
  intros Hd Hc. apply lookup_lt_is_Some. rewrite parsed_clock_length.
  apply lookup_lt_is_Some in Hd, Hc. lia.
Qed.

(** X18.  An empty clock-in or clock-out cell gives null worked hours on its
    row, whatever the date and the other clock are; it raises nothing. *)
Theorem empty_clock_cell_gives_null_hours
    (df out : DataFrame) (cin cout hs : list value) (k : nat) :
  rectangular df ->
  calculate_work_hours df = Ok out ->
  columns df !! "出勤" = Some cin ->
  columns df !! "退勤" = Some cout ->
  columns out !! "勤務時間" = Some hs ->
  cin !! k = Some VNaN \/ cout !! k = Some VNaN ->
  hs !! k = Some VNaN.
Proof.
  intros Hr H Hi Ho Hh Hk. apply calculate_work_hours_inv in H
    as (dcol & cin' & cout' & dts & Hd & Hi' & Ho' & Hc & _ & ->).
  rewrite Hi in Hi'. injection Hi' as <-.
  rewrite Ho in Ho'. injection Ho' as <-.
  rewrite work_hours_frame_hours in Hh. injection Hh as <-.
  pose proof (Hr _ _ Hd) as Ld. pose proof (Hr _ _ Hi) as Li.
  pose proof (Hr _ _ Ho) as Lo. apply mapM_result_length in Hc.
  assert (k < nrows df)%nat as Hlt
    by (destruct Hk as [Hk|Hk]; apply lookup_lt_Some in Hk; lia).
  assert (is_Some (dts !! k)) as Hdk by (apply lookup_lt_is_Some; lia).
  assert (is_Some (cin !! k)) as Hik by (apply lookup_lt_is_Some; lia).
  assert (is_Some (cout !! k)) as Hok by (apply lookup_lt_is_Some; lia).
  destruct (parsed_clock_is_Some dts cin k Hdk Hik) as [i Hpi].
  destruct (parsed_clock_is_Some dts cout k Hdk Hok) as [o Hpo].
  apply (hours_of_null _ _ _ _ i o Hpi Hpo).
  destruct Hk as [Hk|Hk]; [left|right].
  - rewrite (parsed_clock_no_clock dts cin k VNaN Hk eq_refl Hdk eq_refl) in Hpi.
    congruence.
  - rewrite (parsed_clock_no_clock dts cout k VNaN Hk eq_refl Hdk eq_refl) in Hpo.
    congruence.
Qed.

Lemma empty_clock_cell_gives_null_hours_witness :
  hours_of sample_dates sample_in sample_out !! 4%nat = Some VNaN.
Proof.
  apply (empty_clock_cell_gives_null_hours sample_frame sample_hours_frame
           sample_in sample_out _ 4 sample_frame_rectangular
           sample_frame_hours);
    try (vm_compute; reflexivity).
  left. reflexivity.
Defined.
